(** * FlareSolverr: the HTTP surface of [src/flaresolverr.py]

    A shallow embedding of the request handlers and of the start-up script of
    [flaresolverr.py], and the properties of the dispatch layer proved on it.

    The file embeds, statement by statement,
    - [JSONErrorBottle.default_error_handler],
    - the handlers [index], [health], [controller_v1] and [content],
    - the [__main__] block ([main]).

    Everything the module imports (the two solver services, [utils], [dtos],
    [requests], [asyncio], the Bottle framework) is outside the module.  The
    services, [utils] and [requests] are the fields of the class
    [Collaborators]; [asyncio.run] and the part of Bottle that the handlers
    rely on are given a small executable model of their documented behaviour.

    Python statements become computations of the monad [Proc]: a computation
    takes the state of the process and yields the new state together with
    what happened: it returned a value, it raised, or it never returns
    ([None], with the state in which the process is stuck).  The state keeps
    a chronological log of the calls made to the collaborators, which is what
    the properties about "which adapter was invoked" speak about. *)

From Stdlib Require Import String List ZArith Bool Lia.
Import ListNotations.
Local Open Scope string_scope.
Local Open Scope Z_scope.

Set Implicit Arguments.
Set Warnings "-register-all".

(* ================================================================== *)
(** ** Python values *)

(** JSON-like Python values: what [request.json] yields and what a handler
    returns.  A [dict] literal is an association list in insertion order. *)
Inductive Json : Type :=
| JNone
| JBool (b : bool)
| JInt (z : Z)
| JStr (s : string)
| JList (l : list Json)
| JDict (d : list (string * Json)).

(** The exceptions that occur in the module. *)
Inductive Exn : Type :=
| HTTPError (status_code : Z) (body : string)   (* bottle.HTTPError *)
| ValidationError (field : string)              (* the request DTO layer *)
| RequestException (msg : string)               (* requests.exceptions.RequestException *)
| SystemExit (code : Z)                         (* sys.exit *)
| PyException (msg : string).                   (* any other Exception *)

(** [str(e)] *)
Definition str_exn (e : Exn) : string :=
  match e with
  | HTTPError _ b => b
  | ValidationError f => f
  | RequestException m => m
  | SystemExit _ => EmptyString
  | PyException m => m
  end.

(** [isinstance(e, requests.exceptions.RequestException)] *)
Definition is_RequestException (e : Exn) : bool :=
  match e with RequestException _ => true | _ => false end.

(** A statement either completes with a value or raises. *)
Inductive Outcome (A : Type) : Type :=
| Ok (a : A)
| Raise (e : Exn).
Arguments Ok {A} a.
Arguments Raise {A} e.

(** [d.get(key)] on a mapping that keeps one value per key. *)
Fixpoint assoc_get {V : Type} (key : string) (d : list (string * V)) : option V :=
  match d with
  | [] => None
  | (k, v) :: d' => if String.eqb k key then Some v else assoc_get key d'
  end.

(** The keys of a dict, in order. *)
Definition dict_keys (j : Json) : list string :=
  match j with
  | JDict d => map fst d
  | _ => []
  end.

(** [d[key]] read as an optional value. *)
Definition dict_get (key : string) (j : Json) : option Json :=
  match j with
  | JDict d => assoc_get key d
  | _ => None
  end.

(** [bottle.MultiDict.get(key)]: the most recent value stored under [key]
    (index [-1]), [None] when the key is absent. *)
Fixpoint multidict_get (key : string) (q : list (string * string)) : option string :=
  match q with
  | [] => None
  | (k, v) :: q' =>
      match multidict_get key q' with
      | Some v' => Some v'
      | None => if String.eqb k key then Some v else None
      end
  end.

(** Truth value of [None] or a [str]: [not target_url] is [negb (truthy _)]. *)
Definition truthy (o : option string) : bool :=
  match o with
  | None => false
  | Some s => negb (String.eqb s EmptyString)
  end.

(** [headers.get(name, default)] *)
Definition header_get (name default : string) (h : list (string * string)) : string :=
  match assoc_get name h with
  | Some v => v
  | None => default
  end.

(* ================================================================== *)
(** ** Coroutines *)

(** A coroutine object over an external state [X].  At an await point the
    awaited operation either never completes ([blocked]) or acts on the
    external state, after which the coroutine is resumed. *)
Inductive Coro (X A : Type) : Type :=
| CoDone (r : Outcome A)
| CoAwait (blocked : X -> bool) (effect : X -> X) (resume : X -> Coro X A).
Arguments CoDone {X A} r.
Arguments CoAwait {X A} blocked effect resume.

(** [loop.run_until_complete(coro)]: the outcome of the coroutine ([None]
    when it never completes), the external state it leaves and the number of
    times it was resumed. *)
Fixpoint run_until_complete {X A : Type} (c : Coro X A) (x : X)
  : option (Outcome A) * X * nat :=
  match c with
  | CoDone r => (Some r, x, O)
  | CoAwait blocked effect resume =>
      if blocked x then (None, x, O)
      else match run_until_complete (resume x) (effect x) with
           | (r, x', n) => (r, x', S n)
           end
  end.

(* ================================================================== *)
(** ** The inbound request and the response object *)

(** The body of a request as [request.json] sees it. *)
Inductive Body : Type :=
| NoJson                 (* no JSON content type, or an empty body *)
| InvalidJson            (* JSON content type, text that does not parse *)
| JsonBody (j : Json).

(** [bottle.request] *)
Record Request : Type := {
  method : string;
  path : string;
  query : list (string * string);
  headers : list (string * string);
  body : Body
}.

(** Bottle's [request.json]: the parsed body, [None] when there is none;
    "Invalid JSON raises a 400 error response". *)
Definition request_json (rq : Request) : Outcome (option Json) :=
  match body rq with
  | NoJson => Ok None
  | InvalidJson => Raise (HTTPError 400 "Invalid JSON")
  | JsonBody j => Ok (Some j)
  end.

(** [bottle.response]: the part the module writes. *)
Record Response : Type := {
  status : Z;
  content_type : string
}.

(** The response object Bottle binds at the start of every request. *)
Definition fresh_response : Response :=
  {| status := 200; content_type := "text/html; charset=UTF-8" |}.

(** [requests.Response]: the part the module reads. *)
Record ExternalResponse : Type := {
  status_code : Z;
  text : string
}.

(** What a handler returns. *)
Inductive Ret : Type :=
| RetDict (d : Json)
| RetStr (s : string).

(** The HTTP response that leaves the server. *)
Record HttpResponse : Type := {
  http_status : Z;
  http_content_type : string;
  http_body : string
}.

(** The process environment read by the start-up script. *)
Record Process : Type := {
  version_info : Z * Z;                    (* sys.version_info[:2] *)
  os_name : string;                        (* os.name *)
  environ : list (string * string)         (* os.environ *)
}.

(** The calls of the start-up script whose result the script does not use. *)
Inductive Setup : Type :=
| freeze_support
| set_ca_bundle
| get_config_log_html
| get_config_headless
| get_driver_selection
| logging_basicConfig (format level : string)
| logging_set_levels
| logging_banner
| get_current_platform
| prometheus_setup.

(** The plugins installed on the application. *)
Inductive Plugin : Type :=
| logger_plugin
| error_plugin
| prometheus_plugin.

(* ================================================================== *)
(** ** The collaborators of the module *)

(** [dtos.V1RequestBase]: the class of the request objects and its
    constructor, which may raise. *)
Class Dto : Type := {
  V1Request : Type;
  V1RequestBase : option Json -> Outcome V1Request
}.

(** Everything else [flaresolverr.py] imports from the repository, from
    [requests] and from the standard library.  [Ext] is the state these
    collaborators own (browser sessions, the network, the attributes of
    [utils]); a call acts on it and returns, raises or never returns
    ([None]). *)
Class Collaborators {D : Dto} : Type := {
  Ext : Type;
  (** the objects the services return *)
  Obj : Type;
  (** [utils.DRIVER_SELECTION] *)
  DRIVER_SELECTION : Ext -> option string;
  (** [utils.object_to_dict] *)
  object_to_dict : Obj -> Json;
  (** the attribute [__error_500__] of a response object *)
  __error_500__ : Obj -> bool;
  (** [flaresolverr_service.index_endpoint], [health_endpoint] *)
  index_endpoint : Ext -> option (Outcome Obj) * Ext;
  health_endpoint : Ext -> option (Outcome Obj) * Ext;
  (** [flaresolverr_service.controller_v1_endpoint] *)
  controller_v1_endpoint : V1Request -> Ext -> option (Outcome Obj) * Ext;
  (** [flaresolverr_service_nd.controller_v1_endpoint_nd], an [async def] *)
  controller_v1_endpoint_nd : V1Request -> Coro Ext Obj;
  (** [flaresolverr_service.test_browser_installation_uc] *)
  test_browser_installation_uc : Ext -> option (Outcome unit) * Ext;
  (** [flaresolverr_service_nd.test_browser_installation_nd], an [async def] *)
  test_browser_installation_nd : Coro Ext unit;
  (** [requests.get(url, headers=headers)] *)
  requests_get : string -> list (string * string) -> Ext
                 -> option (Outcome ExternalResponse) * Ext;
  (** the remaining calls of the start-up script *)
  setup_call : Setup -> Ext -> option (Outcome unit) * Ext;
  (** [json.dumps], [repr] and [int] on strings, [str.upper] *)
  json_dumps : Json -> string;
  repr : string -> string;
  int_of_str : string -> option Z;
  upper : string -> string
}.

(* ================================================================== *)
(** ** The state of the process and the monad of statements *)

Section Model.

Context {D : Dto} {C : Collaborators}.

(** The calls that leave the module, as an instrumented run records them. *)
Inductive Event : Type :=
| EvIndex
| EvHealth
| EvSyncAdapter (req : V1Request)      (* controller_v1_endpoint(req) *)
| EvAsyncAdapter (req : V1Request)     (* controller_v1_endpoint_nd(req) *)
| EvLoopNew (id : nat)                 (* asyncio.run creates event loop [id] *)
| EvLoopClose (id : nat) (resumed : nat)
| EvRequestsGet (url : string) (hdrs : list (string * string))
| EvSetup (s : Setup)
| EvSelfTestSync                       (* test_browser_installation_uc() *)
| EvSelfTestAsync                      (* test_browser_installation_nd() *)
| EvInstall (p : Plugin)
| EvServe (host : string) (port : Z)   (* the server starts accepting traffic *)
| EvAccept (rq : Request)              (* the server hands a request to the app *)
| EvReply (r : HttpResponse).

Record World : Type := {
  ext : Ext;
  response : Response;     (* bottle.response *)
  loops : nat;             (* event loops created so far *)
  trace : list Event       (* oldest event first *)
}.

(** A statement: the new state, and whether the statement returned a value,
    raised, or never returns ([None]). *)
Definition Proc (A : Type) : Type := World -> option (Outcome A) * World.

Definition ret {A} (a : A) : Proc A := fun w => (Some (Ok a), w).

Definition raise {A} (e : Exn) : Proc A := fun w => (Some (Raise e), w).

Definition bind {A B} (c : Proc A) (k : A -> Proc B) : Proc B :=
  fun w =>
    match c w with
    | (Some (Ok a), w') => k a w'
    | (Some (Raise e), w') => (Some (Raise e), w')
    | (None, w') => (None, w')
    end.

Notation "x <- c ;; k" := (bind c (fun x => k))
  (at level 61, c at next level, right associativity).
Notation "c ;; k" := (bind c (fun _ => k))
  (at level 61, right associativity).

(** A pure expression that may raise. *)
Definition lift {A} (o : Outcome A) : Proc A :=
  match o with
  | Ok a => ret a
  | Raise e => raise e
  end.

(** [try: c  except <exceptions matched by handles> as e: h e] *)
Definition try_except {A} (c : Proc A) (handles : Exn -> bool) (h : Exn -> Proc A)
  : Proc A :=
  fun w =>
    match c w with
    | (Some (Raise e), w') => if handles e then h e w' else (Some (Raise e), w')
    | r => r
    end.

Definition set_ext (x : Ext) (w : World) : World :=
  {| ext := x; response := response w; loops := loops w; trace := trace w |}.

Definition set_response (r : Response) (w : World) : World :=
  {| ext := ext w; response := r; loops := loops w; trace := trace w |}.

Definition add_event (ev : Event) (w : World) : World :=
  {| ext := ext w; response := response w; loops := loops w;
     trace := trace w ++ [ev] |}.

Definition log (ev : Event) : Proc unit := fun w => (Some (Ok tt), add_event ev w).

(** Reading an attribute of a collaborator. *)
Definition read {A} (f : Ext -> A) : Proc A := fun w => (Some (Ok (f (ext w))), w).

(** A call to a collaborator, recorded as [ev]. *)
Definition call {A} (ev : Event) (f : Ext -> option (Outcome A) * Ext) : Proc A :=
  log ev ;;
  fun w => (fst (f (ext w)), set_ext (snd (f (ext w))) w).

(** [response.status = s] *)
Definition set_status (s : Z) : Proc unit :=
  fun w => (Some (Ok tt),
            set_response {| status := s;
                            content_type := content_type (response w) |} w).

(** [response.content_type = t] *)
Definition set_content_type (t : string) : Proc unit :=
  fun w => (Some (Ok tt),
            set_response {| status := status (response w);
                            content_type := t |} w).

(** [asyncio.run(coro)]: a new event loop is created, the coroutine is run on
    it until it completes, the loop is closed, and the value of the coroutine
    is returned or its exception raised.  While the coroutine has not
    completed the caller is blocked. *)
Definition asyncio_run {A} (coro : Coro Ext A) : Proc A :=
  fun w =>
    let id := loops w in
    let w1 := {| ext := ext w; response := response w; loops := S id;
                 trace := trace w ++ [EvLoopNew id] |} in
    match run_until_complete coro (ext w1) with
    | (Some r, x, n) => (Some r, add_event (EvLoopClose id n) (set_ext x w1))
    | (None, x, _) => (None, set_ext x w1)
    end.

(* ================================================================== *)
(** ** The handlers of [flaresolverr.py] *)

(** [JSONErrorBottle.default_error_handler(self, res)] *)
Definition default_error_handler (res_status_code : Z) (res_body : string)
  : Proc Ret :=
  set_content_type "application/json" ;;
  ret (RetStr (json_dumps (JDict [("error", JStr res_body);
                                  ("status_code", JInt res_status_code)]))).

(** [index()] *)
Definition index : Proc Ret :=
  res <- call EvIndex index_endpoint ;;
  ret (RetDict (object_to_dict res)).

(** [health()] *)
Definition health : Proc Ret :=
  res <- call EvHealth health_endpoint ;;
  ret (RetDict (object_to_dict res)).

(** [utils.DRIVER_SELECTION == "nodriver"] *)
Definition is_nodriver (sel : option string) : bool :=
  match sel with
  | Some s => String.eqb s "nodriver"
  | None => false
  end.

(** [controller_v1()] *)
Definition controller_v1 (rq : Request) : Proc Ret :=
  j <- lift (request_json rq) ;;
  req <- lift (V1RequestBase j) ;;
  sel <- read DRIVER_SELECTION ;;
  res <- (if is_nodriver sel
          then (log (EvAsyncAdapter req) ;;
                asyncio_run (controller_v1_endpoint_nd req))
          else call (EvSyncAdapter req) (controller_v1_endpoint req)) ;;
  (if __error_500__ res then set_status 500 else ret tt) ;;
  ret (RetDict (object_to_dict res)).

(** [content()] *)
Definition content (rq : Request) : Proc Ret :=
  let target_url := multidict_get "url" (query rq) in
  if negb (truthy target_url) then
    set_status 400 ;;
    ret (RetDict (JDict [("error", JStr "Missing 'url' in query parameters.")]))
  else
    let url := match target_url with Some u => u | None => EmptyString end in
    let user_agent := header_get "User-Agent" "Unknown" (headers rq) in
    let cookie := header_get "Cookie" EmptyString (headers rq) in
    let hdrs := [("User-Agent", user_agent); ("Cookie", cookie)] in
    try_except
      (external_response <- call (EvRequestsGet url hdrs) (requests_get url hdrs) ;;
       set_content_type "application/json" ;;
       ret (RetDict (JDict
              [("message", JStr "Request forwarded successfully");
               ("target_url", JStr url);
               ("received_headers",
                 JDict [("User-Agent", JStr user_agent); ("Cookie", JStr cookie)]);
               ("status", JInt (status_code external_response));
               ("external_api_response", JStr (text external_response))])))
      is_RequestException
      (fun e =>
         set_status 500 ;;
         ret (RetDict (JDict [("error", JStr (str_exn e))]))).

(* ================================================================== *)
(** ** The Bottle application *)

(** The callbacks registered on [app]. *)
Inductive Handler : Type :=
| h_index
| h_health
| h_controller_v1
| h_content.

(** The routing table built by the decorators of the module: [@app.route]
    registers a GET route, [@app.post] a POST route, [@app.get] a GET route. *)
Definition routes : list (string * string * Handler) :=
  [ ("GET", "/", h_index);
    ("GET", "/health", h_health);
    ("POST", "/v1", h_controller_v1);
    ("GET", "/content", h_content) ].

Definition callback (h : Handler) (rq : Request) : Proc Ret :=
  match h with
  | h_index => index
  | h_health => health
  | h_controller_v1 => controller_v1 rq
  | h_content => content rq
  end.

(** The route registered for a method and a path, if any. *)
Fixpoint lookup_route (m p : string) (rs : list (string * string * Handler))
  : option Handler :=
  match rs with
  | [] => None
  | (m', p', h) :: rs' =>
      if String.eqb m' m && String.eqb p' p then Some h else lookup_route m p rs'
  end.

(** The first of the methods [ms] under which the path is registered. *)
Fixpoint first_route (ms : list string) (p : string) : option Handler :=
  match ms with
  | [] => None
  | m :: ms' =>
      match lookup_route m p routes with
      | Some h => Some h
      | None => first_route ms' p
      end
  end.

Definition mem_string (s : string) (l : list string) : bool :=
  existsb (String.eqb s) l.

(** The methods, other than those tried, under which the path is registered. *)
Definition allowed_methods (tried : list string) (p : string) : list string :=
  map (fun r => fst (fst r))
      (filter (fun r => String.eqb (snd (fst r)) p
                        && negb (mem_string (fst (fst r)) tried))
              routes).

(** Bottle's [Router.match]: the callback of the route, or the error it
    raises: 405 when the path is registered under another method, 404 when it
    is not registered at all. *)
Definition router_match (rq : Request) : Outcome Handler :=
  let p := if String.eqb (path rq) EmptyString then "/" else path rq in
  let tried := if String.eqb (method rq) "HEAD"
               then ["PROXY"; "HEAD"; "GET"; "ANY"]
               else ["PROXY"; method rq; "ANY"] in
  match first_route tried p with
  | Some h => Ok h
  | None =>
      match allowed_methods tried p with
      | [] => Raise (HTTPError 404 ("Not found: " ++ repr p))
      | _ :: _ => Raise (HTTPError 405 "Method not allowed.")
      end
  end.

(** [response.bind()]: every request starts from a fresh response object. *)
Definition bind_response : Proc unit :=
  fun w => (Some (Ok tt), set_response fresh_response w).

(** What is sent once the body is known. *)
Definition reply (b : string) : Proc HttpResponse :=
  fun w => (Some (Ok {| http_status := status (response w);
                        http_content_type := content_type (response w);
                        http_body := b |}), w).

(** Bottle's treatment of an [HTTPError]: its status is applied to the
    response and the body is produced by the application's error handler,
    here [default_error_handler]. *)
Definition error_response (code : Z) (msg : string) : Proc HttpResponse :=
  bind_response ;;
  set_status code ;;
  out <- default_error_handler code msg ;;
  match out with
  | RetStr s => reply s
  | RetDict d => reply (json_dumps d)
  end.

(** The wrappers of the installed plugins are not part of the module. *)
Variable plugins : Proc Ret -> Proc Ret.

(** Bottle's handling of one request: the route is looked up; an unmatched
    request goes to the error handler; otherwise the callback runs under the
    plugins, a returned [dict] is serialised as JSON, a raised [HTTPError] or
    any other [Exception] (as a 500) goes to the error handler, and
    [SystemExit] is re-raised. *)
Definition handle (rq : Request) : Proc HttpResponse :=
  bind_response ;;
  match router_match rq with
  | Raise (HTTPError code msg) => error_response code msg
  | Raise e => raise e
  | Ok h =>
      fun w =>
        match plugins (callback h rq) w with
        | (None, w') => (None, w')
        | (Some (Ok (RetDict d)), w') =>
            (set_content_type "application/json" ;; reply (json_dumps d)) w'
        | (Some (Ok (RetStr s)), w') => reply s w'
        | (Some (Raise (HTTPError code msg)), w') => error_response code msg w'
        | (Some (Raise (SystemExit c)), w') => (Some (Raise (SystemExit c)), w')
        | (Some (Raise _), w') => error_response 500 "Internal Server Error" w'
        end
  end.

(** The server loop on the requests that arrive while the process runs. *)
Fixpoint serve (traffic : list Request) : Proc unit :=
  match traffic with
  | [] => ret tt
  | rq :: rest =>
      log (EvAccept rq) ;;
      r <- handle rq ;;
      log (EvReply r) ;;
      serve rest
  end.

(** [run(app, host=..., port=..., quiet=True, server=WaitressServerPoll)] *)
Definition run (host : string) (port : Z) (traffic : list Request) : Proc unit :=
  log (EvServe host port) ;;
  serve traffic.

(* ================================================================== *)
(** ** The start-up script *)

(** [os.environ.get(key, default)] *)
Definition environ_get (p : Process) (key default : string) : string :=
  match assoc_get key (environ p) with
  | Some v => v
  | None => default
  end.

(** [sys.version_info < (3, 9)] *)
Definition version_lt_3_9 (v : Z * Z) : bool :=
  (fst v <? 3) || ((fst v =? 3) && (snd v <? 9)).

(** [int(os.environ.get('PORT', 8191))] *)
Definition server_port_of (p : Process) : Outcome Z :=
  match assoc_get "PORT" (environ p) with
  | None => Ok 8191
  | Some s =>
      match int_of_str s with
      | Some z => Ok z
      | None => Raise (PyException "invalid literal for int()")
      end
  end.

Definition setup (s : Setup) : Proc unit := call (EvSetup s) (setup_call s).

(** [app.install(plugin)] *)
Definition install (p : Plugin) : Proc unit := log (EvInstall p).

(** Lines 107-162 of the [if __name__ == "__main__":] block: the version
    check, the fixes for Windows and for certificates, the configuration and
    the logger.  It yields the host and the port the server will bind. *)
Definition startup_config (p : Process) : Proc (string * Z) :=
  (if version_lt_3_9 (version_info p)
   then raise (PyException
     "The Python version is less than 3.9, a version equal to or higher is required.")
   else ret tt) ;;
  (if String.eqb (os_name p) "nt" then setup freeze_support else ret tt) ;;
  setup set_ca_bundle ;;
  let log_level := upper (environ_get p "LOG_LEVEL" "info") in
  setup get_config_log_html ;;
  setup get_config_headless ;;
  let server_host := environ_get p "HOST" "0.0.0.0" in
  server_port <- lift (server_port_of p) ;;
  setup get_driver_selection ;;
  let logger_format :=
    if String.eqb log_level "DEBUG"
    then "%(asctime)s %(levelname)-8s ReqId %(thread)s %(message)s"
    else "%(asctime)s %(levelname)-8s %(message)s" in
  setup (logging_basicConfig logger_format log_level) ;;
  setup logging_set_levels ;;
  setup logging_banner ;;
  setup get_current_platform ;;
  ret (server_host, server_port).

(** Lines 164-168: the self-test of the selected backend. *)
Definition self_test : Proc unit :=
  sel <- read DRIVER_SELECTION ;;
  if is_nodriver sel
  then (log EvSelfTestAsync ;; asyncio_run test_browser_installation_nd)
  else call EvSelfTestSync test_browser_installation_uc.

(** Lines 170-185: the plugins are installed and the server is started. *)
Definition start_server (host : string) (port : Z) (traffic : list Request)
  : Proc unit :=
  install logger_plugin ;;
  install error_plugin ;;
  setup prometheus_setup ;;
  install prometheus_plugin ;;
  run host port traffic.

(** The [if __name__ == "__main__":] block; [traffic] is what reaches the
    server once it runs. *)
Definition main (p : Process) (traffic : list Request) : Proc unit :=
  hp <- startup_config p ;;
  self_test ;;
  start_server (fst hp) (snd hp) traffic.

End Model.

Notation "x <- c ;; k" := (bind c (fun x => k))
  (at level 61, c at next level, right associativity).
Notation "c ;; k" := (bind c (fun _ => k))
  (at level 61, right associativity).

(* ================================================================== *)
(** ** What an instrumented run observes *)

Section Observations.

Context {D : Dto} {C : Collaborators}.

(** The two solve adapters. *)
Inductive Adapter : Type :=
| SyncAdapter      (* flaresolverr_service.controller_v1_endpoint *)
| AsyncAdapter.    (* flaresolverr_service_nd.controller_v1_endpoint_nd *)

(** The adapter the selection designates. *)
Definition selected_adapter (sel : option string) : Adapter :=
  if is_nodriver sel then AsyncAdapter else SyncAdapter.

(** The adapter invocations of a trace, in order. *)
Fixpoint adapters_invoked (t : list Event) : list (Adapter * V1Request) :=
  match t with
  | [] => []
  | EvSyncAdapter req :: t' => (SyncAdapter, req) :: adapters_invoked t'
  | EvAsyncAdapter req :: t' => (AsyncAdapter, req) :: adapters_invoked t'
  | _ :: t' => adapters_invoked t'
  end.

(** What the adapter designated by the selection answers to [req] when it is
    started in the external state [x]: an object, an exception, or nothing
    at all ([None]). *)
Definition adapter_answer (req : V1Request) (x : Ext) : option (Outcome Obj) :=
  if is_nodriver (DRIVER_SELECTION x)
  then fst (fst (run_until_complete (controller_v1_endpoint_nd req) x))
  else fst (controller_v1_endpoint req x).

(** The headers [content] puts on the outbound request. *)
Definition forwarded_headers (rq : Request) : list (string * string) :=
  [("User-Agent", header_get "User-Agent" "Unknown" (headers rq));
   ("Cookie", header_get "Cookie" EmptyString (headers rq))].

(** The outbound HTTP requests of a trace, in order. *)
Fixpoint outbound_requests (t : list Event)
  : list (string * list (string * string)) :=
  match t with
  | [] => []
  | EvRequestsGet u h :: t' => (u, h) :: outbound_requests t'
  | _ :: t' => outbound_requests t'
  end.

Definition is_serve (ev : Event) : bool :=
  match ev with EvServe _ _ => true | _ => false end.

Definition is_accept (ev : Event) : bool :=
  match ev with EvAccept _ => true | _ => false end.

Definition is_self_test (ev : Event) : bool :=
  match ev with EvSelfTestSync | EvSelfTestAsync => true | _ => false end.

(** The self-test event of the adapter the selection designates. *)
Definition self_test_event (sel : option string) : Event :=
  if is_nodriver sel then EvSelfTestAsync else EvSelfTestSync.

(** The server started accepting traffic somewhere in the trace. *)
Definition served (t : list Event) : bool := existsb is_serve t.

(** The event loops opened and closed in a trace. *)
Fixpoint loops_opened (t : list Event) : list nat :=
  match t with
  | [] => []
  | EvLoopNew id :: t' => id :: loops_opened t'
  | _ :: t' => loops_opened t'
  end.

Fixpoint loops_closed (t : list Event) : list nat :=
  match t with
  | [] => []
  | EvLoopClose id _ :: t' => id :: loops_closed t'
  | _ :: t' => loops_closed t'
  end.

(** Every event loop named in the trace was created before the next one. *)
Definition loops_consistent (w : World) : Prop :=
  Forall (fun id => (id < loops w)%nat) (loops_opened (trace w)).

(** The server starts accepting traffic, or accepts a request. *)
Definition serving (ev : Event) : bool := is_serve ev || is_accept ev.

(** Neither the start of the server, nor a request accepted by it, nor a
    self-test. *)
Definition quiet (ev : Event) : bool :=
  negb (is_serve ev || is_accept ev || is_self_test ev).

(** [c] only appends events to the trace, and all of them satisfy [P]. *)
Definition emits {A : Type} (P : Event -> Prop) (c : Proc A) : Prop :=
  forall w, exists evs, trace (snd (c w)) = (trace w ++ evs)%list /\ Forall P evs.

(** Plugins may log, but they do not rewrite the log of a callback that only
    appends to it. *)
Definition append_only (plugins : Proc Ret -> Proc Ret) : Prop :=
  forall cb, emits (fun _ => True) cb -> emits (fun _ => True) (plugins cb).

(** The path Bottle looks up for a request. *)
Definition route_path (rq : Request) : string :=
  if String.eqb (path rq) EmptyString then "/" else path rq.

(** Some route is registered for the path, under whatever method. *)
Definition registered (p : string) : bool :=
  existsb (fun r => String.eqb (snd (fst r)) p) routes.

(** The calls of the configuration block of the start-up script (lines
    111-162), in the order of the source. *)
Definition config_calls (p : Process) : list Setup :=
  let log_level := upper (environ_get p "LOG_LEVEL" "info") in
  let logger_format :=
    if String.eqb log_level "DEBUG"
    then "%(asctime)s %(levelname)-8s ReqId %(thread)s %(message)s"
    else "%(asctime)s %(levelname)-8s %(message)s" in
  (if String.eqb (os_name p) "nt" then [freeze_support] else []) ++
  [set_ca_bundle; get_config_log_html; get_config_headless;
   get_driver_selection; logging_basicConfig logger_format log_level;
   logging_set_levels; logging_banner; get_current_platform].

(** How many of them come before the port is read. *)
Definition calls_before_port (p : Process) : nat :=
  ((if String.eqb (os_name p) "nt" then 1 else 0) + 3)%nat.

(** The events with which the server is brought up once the self-test has
    passed (lines 170-185), in the order of the source. *)
Definition server_start_events (host : string) (port : Z) : list Event :=
  [EvInstall logger_plugin; EvInstall error_plugin; EvSetup prometheus_setup;
   EvInstall prometheus_plugin; EvServe host port].

(** [c] makes the calls of [l], in order and from the first, and logs
    nothing else; it leaves the response and the event loops alone; when it
    returns it has made all of them and its value satisfies [Q]. *)
Definition makes_calls {A : Type} (l : list Setup) (Q : A -> Prop)
    (c : Proc A) : Prop :=
  forall w, exists n,
    trace (snd (c w)) = (trace w ++ map EvSetup (firstn n l))%list /\
    response (snd (c w)) = response w /\
    loops (snd (c w)) = loops w /\
    (n <= length l)%nat /\
    forall a, fst (c w) = Some (Ok a) -> n = length l /\ Q a.

(** The dictionary form of a list of headers. *)
Definition headers_dict (h : list (string * string)) : Json :=
  JDict (map (fun kv => (fst kv, JStr (snd kv))) h).

End Observations.

(* ================================================================== *)
(** ** The request DTO layer and the error layer *)

(** Modelled from the spec: [dtos.V1RequestBase] is not part of
    [flaresolverr.py].  The specification describes the request value by its
    attributes: "command, target URL, optional proxy config, optional session
    identifier, optional cookies/headers, timeout (milliseconds, default
    applied if absent)". *)
Record SolveRequest : Type := {
  cmd : string;
  url : string;
  proxy : option Json;
  session : option Json;
  cookies : option Json;
  maxTimeout : Z
}.

Section SpecDto.

(** The "fixed known set" of commands, the well-formedness of a URL and the
    default timeout are not given by the specification. *)
Variable known_commands : list string.
Variable well_formed_url : string -> bool.
Variable default_timeout : Z.

(** Modelled from the spec: the constructor of [dtos.V1RequestBase], which is
    not part of [flaresolverr.py].  "Given raw untyped JSON, produce a
    SolveRequest or fail with a ValidationError naming the offending field.
    Must reject missing command, malformed URL, and negative/zero timeout";
    "command must be one of a fixed known set; unknown command is a
    validation failure". *)
Definition validate (j : option Json) : Outcome SolveRequest :=
  match j with
  | Some (JDict d) =>
      match assoc_get "cmd" d with
      | Some (JStr c) =>
          if mem_string c known_commands then
            match assoc_get "url" d with
            | Some (JStr u) =>
                if well_formed_url u then
                  match assoc_get "maxTimeout" d with
                  | None =>
                      Ok {| cmd := c; url := u;
                            proxy := assoc_get "proxy" d;
                            session := assoc_get "session" d;
                            cookies := assoc_get "cookies" d;
                            maxTimeout := default_timeout |}
                  | Some (JInt t) =>
                      if 0 <? t then
                        Ok {| cmd := c; url := u;
                              proxy := assoc_get "proxy" d;
                              session := assoc_get "session" d;
                              cookies := assoc_get "cookies" d;
                              maxTimeout := t |}
                      else Raise (ValidationError "maxTimeout")
                  | Some _ => Raise (ValidationError "maxTimeout")
                  end
                else Raise (ValidationError "url")
            | _ => Raise (ValidationError "url")
            end
          else Raise (ValidationError "cmd")
      | _ => Raise (ValidationError "cmd")
      end
  | _ => Raise (ValidationError "body")
  end.

Definition SpecDto : Dto :=
  {| V1Request := SolveRequest; V1RequestBase := validate |}.

(** The command of a request body, when the body is an object with a string
    under ["cmd"]. *)
Definition command_of (rq : Request) : option string :=
  match body rq with
  | JsonBody (JDict d) =>
      match assoc_get "cmd" d with
      | Some (JStr c) => Some c
      | _ => None
      end
  | _ => None
  end.

(** The command value of the request is not one of the known commands. *)
Definition unknown_command (rq : Request) : bool :=
  match command_of rq with
  | Some c => negb (mem_string c known_commands)
  | None => false
  end.

(** The body cannot be read as JSON or does not pass validation. *)
Definition malformed (rq : Request) : bool :=
  match request_json rq with
  | Raise _ => true
  | Ok j => match validate j with Raise _ => true | Ok _ => false end
  end.

End SpecDto.

(** Modelled from the spec: the status of a failure, which is assigned by
    the error layer ([bottle_plugins.error_plugin]) and not by
    [flaresolverr.py].  "ValidationError - malformed/missing request fields
    -> HTTP 400"; an [HTTPError] carries its own status; any other failure
    is a 500. *)
Definition failure_status (e : Exn) : Z :=
  match e with
  | ValidationError _ => 400
  | HTTPError code _ => code
  | _ => 500
  end.

(** Modelled from the spec: the wrapper of [bottle_plugins.error_plugin],
    which is not part of [flaresolverr.py].  "Every failure returns a JSON
    body with a human-readable message and the appropriate status code". *)
Definition spec_error_plugin {D : Dto} {C : Collaborators} (cb : Proc Ret)
  : Proc Ret :=
  try_except cb
    (fun e => match e with SystemExit _ => false | _ => true end)
    (fun e =>
       set_status (failure_status e) ;;
       ret (RetDict (JDict [("status", JStr "error");
                            ("message", JStr (str_exn e))]))).

(* ================================================================== *)
(** ** Test doubles *)

(** A fake set of collaborators, as a test of the module would install
    them: the services answer at once, and the fake network knows one
    unreachable host. *)
Module Demo.

Definition commands : list string :=
  ["request.get"; "request.post"; "sessions.create"; "sessions.list";
   "sessions.destroy"].

Definition url_ok (u : string) : bool :=
  String.prefix "http://" u || String.prefix "https://" u.

Definition dto : Dto := SpecDto commands url_ok 60000.

Record FakeExt : Type := {
  selection : option string;     (* what utils.DRIVER_SELECTION holds *)
  browser_installed : bool;      (* whether the self-test finds a browser *)
  solved : nat                   (* requests the fake services have solved *)
}.

Record FakeObj : Type := {
  error_flag : bool;
  as_dict : Json
}.

Definition solve_ok (x : FakeExt) : FakeExt :=
  {| selection := selection x; browser_installed := browser_installed x;
     solved := S (solved x) |}.

Definition ok_obj : FakeObj :=
  {| error_flag := false;
     as_dict := JDict [("status", JStr "ok"); ("message", JStr EmptyString)] |}.

Definition error_obj : FakeObj :=
  {| error_flag := true;
     as_dict := JDict [("status", JStr "error");
                       ("message", JStr "Error solving the challenge.")] |}.

(** The fake services solve every request but those for [sessions.destroy]. *)
Definition answer (req : SolveRequest) : FakeObj :=
  if String.eqb (cmd req) "sessions.destroy" then error_obj else ok_obj.

Definition fake_self_test (x : FakeExt) : option (Outcome unit) * FakeExt :=
  if browser_installed x then (Some (Ok tt), x)
  else (Some (Raise (SystemExit 1)), x).

Definition fake_get (u : string) (h : list (string * string)) (x : FakeExt)
  : option (Outcome ExternalResponse) * FakeExt :=
  if String.eqb u "http://unreachable.test"
  then (Some (Raise (RequestException "connection refused")), x)
  else (Some (Ok {| status_code := 404; text := "stub body" |}), x).

Definition quote : string := String (Ascii.ascii_of_nat 34) EmptyString.

Fixpoint fake_dumps (j : Json) : string :=
  match j with
  | JNone => "null"
  | JBool true => "true"
  | JBool false => "false"
  | JInt z => if z =? 404 then "404" else if z =? 405 then "405" else "0"
  | JStr s => quote ++ s ++ quote
  | JList l => "[" ++ String.concat ", " (map fake_dumps l) ++ "]"
  | JDict d =>
      "{" ++ String.concat ", "
               (map (fun kv => quote ++ fst kv ++ quote ++ ": "
                               ++ fake_dumps (snd kv)) d)
          ++ "}"
  end.

Definition fake_int (s : string) : option Z :=
  if String.eqb s "8191" then Some 8191
  else if String.eqb s "8080" then Some 8080
  else None.

Definition fake_endpoint (req : @V1Request dto) (x : FakeExt)
  : option (Outcome FakeObj) * FakeExt :=
  (Some (Ok (answer req)), solve_ok x).

Definition fake_endpoint_nd (req : @V1Request dto) : Coro FakeExt FakeObj :=
  CoAwait (fun _ => false) solve_ok (fun _ => CoDone (Ok (answer req))).

#[local] Instance collaborators : @Collaborators dto := {|
  Ext := FakeExt;
  Obj := FakeObj;
  DRIVER_SELECTION := selection;
  object_to_dict := as_dict;
  __error_500__ := error_flag;
  index_endpoint := fun x => (Some (Ok ok_obj), x);
  health_endpoint := fun x => (Some (Ok ok_obj), x);
  controller_v1_endpoint := fake_endpoint;
  controller_v1_endpoint_nd := fake_endpoint_nd;
  test_browser_installation_uc := fake_self_test;
  test_browser_installation_nd :=
    CoAwait (fun _ => false) (fun x => x)
            (fun x => CoDone (if browser_installed x then Ok tt
                              else Raise (SystemExit 1)));
  requests_get := fake_get;
  setup_call := fun _ x => (Some (Ok tt), x);
  json_dumps := fake_dumps;
  repr := fun s => "'" ++ s ++ "'";
  int_of_str := fake_int;
  upper := fun s => s
|}.

Definition world (sel : option string) (installed : bool)
  : @World dto collaborators :=
  @Build_World dto collaborators
    {| selection := sel; browser_installed := installed; solved := O |}
    fresh_response O [].

Definition post_v1 (b : Body) : Request :=
  {| method := "POST"; path := "/v1"; query := []; headers := []; body := b |}.

Definition get_request (p : string) (q h : list (string * string)) : Request :=
  {| method := "GET"; path := p; query := q; headers := h; body := NoJson |}.

Definition solve_body (c : string) : Body :=
  JsonBody (JDict [("cmd", JStr c); ("url", JStr "http://example.test")]).

Definition solve_json (c : string) : Json :=
  JDict [("cmd", JStr c); ("url", JStr "http://example.test")].

Definition solve_request (c : string) : SolveRequest :=
  {| cmd := c; url := "http://example.test"; proxy := None; session := None;
     cookies := None; maxTimeout := 60000 |}.

(** No plugin installed. *)
Definition no_plugins (cb : @Proc dto collaborators Ret) : Proc Ret := cb.

Definition process : Process :=
  {| version_info := (3, 11); os_name := "posix"; environ := [("PORT", "8191")] |}.

End Demo.

(** Collaborators that fail: the services crash, the HTTP client raises an
    error that is not a [RequestException], the metrics cannot be set up and
    the self-test never returns. *)
Module Faulty.

Definition crash : Exn := PyException "browser crashed".

Definition fake_endpoint (req : @V1Request Demo.dto) (x : Demo.FakeExt)
  : option (Outcome Demo.FakeObj) * Demo.FakeExt :=
  (Some (Raise crash), x).

Definition fake_endpoint_nd (req : @V1Request Demo.dto)
  : Coro Demo.FakeExt Demo.FakeObj :=
  CoAwait (fun _ => false) (fun x => x) (fun _ => CoDone (Raise crash)).

Definition fake_get (u : string) (h : list (string * string))
    (x : Demo.FakeExt)
  : option (Outcome ExternalResponse) * Demo.FakeExt :=
  (Some (Raise (PyException "unexpected keyword argument")), x).

Definition fake_setup (s : Setup) (x : Demo.FakeExt)
  : option (Outcome unit) * Demo.FakeExt :=
  match s with
  | prometheus_setup => (Some (Raise (PyException "port in use")), x)
  | _ => (Some (Ok tt), x)
  end.

#[local] Instance collaborators : @Collaborators Demo.dto := {|
  Ext := Demo.FakeExt;
  Obj := Demo.FakeObj;
  DRIVER_SELECTION := Demo.selection;
  object_to_dict := Demo.as_dict;
  __error_500__ := Demo.error_flag;
  index_endpoint := fun x => (Some (Ok Demo.ok_obj), x);
  health_endpoint := fun x => (Some (Ok Demo.ok_obj), x);
  controller_v1_endpoint := fake_endpoint;
  controller_v1_endpoint_nd := fake_endpoint_nd;
  test_browser_installation_uc := Demo.fake_self_test;
  test_browser_installation_nd := CoAwait (fun _ => true) (fun x => x)
                                          (fun _ => CoDone (Ok tt));
  requests_get := fake_get;
  setup_call := fake_setup;
  json_dumps := Demo.fake_dumps;
  repr := fun s => ("'" ++ s ++ "'")%string;
  int_of_str := Demo.fake_int;
  upper := fun s => s
|}.

Definition world (sel : option string) : @World Demo.dto collaborators :=
  @Build_World Demo.dto collaborators
    {| Demo.selection := sel; Demo.browser_installed := true;
       Demo.solved := O |}
    fresh_response O [].

Definition no_plugins (cb : @Proc Demo.dto collaborators Ret) : Proc Ret := cb.

End Faulty.

(* ================================================================== *)
(** * Properties *)

Local Open Scope list_scope.

Section Properties.

Context {D : Dto} {C : Collaborators}.

(** ** Observations distribute over the concatenation of traces *)

Lemma adapters_invoked_app (t1 t2 : list Event) :
  adapters_invoked (t1 ++ t2) = adapters_invoked t1 ++ adapters_invoked t2.
Proof.
  induction t1 as [|ev t1 IH]; simpl; [reflexivity|].
  destruct ev; simpl; rewrite ?IH; reflexivity.
Qed.

Lemma outbound_requests_app (t1 t2 : list Event) :
  outbound_requests (t1 ++ t2) = outbound_requests t1 ++ outbound_requests t2.
Proof.
  induction t1 as [|ev t1 IH]; simpl; [reflexivity|].
  destruct ev; simpl; rewrite ?IH; reflexivity.
Qed.

Lemma loops_opened_app (t1 t2 : list Event) :
  loops_opened (t1 ++ t2) = loops_opened t1 ++ loops_opened t2.
Proof.
  induction t1 as [|ev t1 IH]; simpl; [reflexivity|].
  destruct ev; simpl; rewrite ?IH; reflexivity.
Qed.

Lemma loops_closed_app (t1 t2 : list Event) :
  loops_closed (t1 ++ t2) = loops_closed t1 ++ loops_closed t2.
Proof.
  induction t1 as [|ev t1 IH]; simpl; [reflexivity|].
  destruct ev; simpl; rewrite ?IH; reflexivity.
Qed.

(** ** The solve handler, case by case *)

(** When [request.json] raises, the handler raises the same exception and
    has done nothing else. *)
Lemma controller_v1_json_raises (rq : Request) (w : World) (e : Exn) :
  request_json rq = Raise e ->
  controller_v1 rq w = (Some (Raise e), w).
Proof.
  intros H. unfold controller_v1, bind. rewrite H. reflexivity.
Qed.

(** When the constructor of the request object raises, so does the handler,
    and it has done nothing else. *)
Lemma controller_v1_dto_raises (rq : Request) (w : World) j (e : Exn) :
  request_json rq = Ok j ->
  V1RequestBase j = Raise e ->
  controller_v1 rq w = (Some (Raise e), w).
Proof.
  intros Hj H. unfold controller_v1, bind. rewrite Hj. simpl. rewrite H.
  reflexivity.
Qed.

(** The synchronous branch. *)
Lemma controller_v1_sync (rq : Request) (w : World) j (req : V1Request) :
  request_json rq = Ok j ->
  V1RequestBase j = Ok req ->
  is_nodriver (DRIVER_SELECTION (ext w)) = false ->
  controller_v1 rq w =
    let t := trace w ++ [EvSyncAdapter req] in
    match controller_v1_endpoint req (ext w) with
    | (Some (Ok res), x) =>
        (Some (Ok (RetDict (object_to_dict res))),
         {| ext := x;
            response :=
              {| status := if __error_500__ res then 500
                           else status (response w);
                 content_type := content_type (response w) |};
            loops := loops w; trace := t |})
    | (Some (Raise e), x) =>
        (Some (Raise e),
         {| ext := x; response := response w; loops := loops w; trace := t |})
    | (None, x) =>
        (None,
         {| ext := x; response := response w; loops := loops w; trace := t |})
    end.
Proof.
  intros Hj Hreq Hsel.
  unfold controller_v1, bind. rewrite Hj. simpl. rewrite Hreq. simpl.
  rewrite Hsel. unfold call, bind, log, add_event, set_ext. simpl.
  destruct (controller_v1_endpoint req (ext w)) as [[[res|e]|] x]; simpl;
    try reflexivity.
  destruct (__error_500__ res); simpl; [reflexivity|].
  destruct w as [x0 [st ct] l t]; reflexivity.
Qed.

(** The asynchronous branch. *)
Lemma controller_v1_async (rq : Request) (w : World) j (req : V1Request) :
  request_json rq = Ok j ->
  V1RequestBase j = Ok req ->
  is_nodriver (DRIVER_SELECTION (ext w)) = true ->
  controller_v1 rq w =
    let id := loops w in
    match run_until_complete (controller_v1_endpoint_nd req) (ext w) with
    | (Some (Ok res), x, n) =>
        (Some (Ok (RetDict (object_to_dict res))),
         {| ext := x;
            response :=
              {| status := if __error_500__ res then 500
                           else status (response w);
                 content_type := content_type (response w) |};
            loops := S id;
            trace := trace w
                     ++ [EvAsyncAdapter req; EvLoopNew id; EvLoopClose id n] |})
    | (Some (Raise e), x, n) =>
        (Some (Raise e),
         {| ext := x; response := response w; loops := S id;
            trace := trace w
                     ++ [EvAsyncAdapter req; EvLoopNew id; EvLoopClose id n] |})
    | (None, x, _) =>
        (None,
         {| ext := x; response := response w; loops := S id;
            trace := trace w ++ [EvAsyncAdapter req; EvLoopNew id] |})
    end.
Proof.
  intros Hj Hreq Hsel.
  unfold controller_v1, bind. rewrite Hj. simpl. rewrite Hreq. simpl.
  rewrite Hsel. unfold asyncio_run, log, add_event, set_ext. simpl.
  destruct (run_until_complete (controller_v1_endpoint_nd req) (ext w))
    as [[[[res|e]|] x] n]; simpl; rewrite <- ?app_assoc; simpl;
    try reflexivity.
  destruct (__error_500__ res); simpl; [reflexivity|].
  destruct w as [x0 [st ct] l t]; reflexivity.
Qed.

(** C1 (as amended).  For every POST /v1 request whose body is read and
    whose request object is constructed, [controller_v1] invokes exactly one
    adapter, with that request object: the asynchronous one when
    [utils.DRIVER_SELECTION] is ["nodriver"], the synchronous one otherwise.
    This holds whether the adapter returns, raises or never returns. *)
Theorem controller_v1_dispatches_selected_adapter
    (rq : Request) (w : World) (j : option Json) (req : V1Request) :
  request_json rq = Ok j ->
  V1RequestBase j = Ok req ->
  exists evs,
    trace (snd (controller_v1 rq w)) = trace w ++ evs /\
    adapters_invoked evs
      = [(selected_adapter (DRIVER_SELECTION (ext w)), req)].
Proof.
  intros Hj Hreq. unfold selected_adapter.
  destruct (is_nodriver (DRIVER_SELECTION (ext w))) eqn:Hsel.
  - rewrite (controller_v1_async rq w Hj Hreq Hsel). simpl.
    destruct (run_until_complete (controller_v1_endpoint_nd req) (ext w))
      as [[[[res|e]|] x] n]; simpl; eexists; split; reflexivity.
  - rewrite (controller_v1_sync rq w Hj Hreq Hsel). simpl.
    destruct (controller_v1_endpoint req (ext w)) as [[[res|e]|] x]; simpl;
      eexists; split; reflexivity.
Qed.

(** C2.  For every POST /v1 request for which the selected adapter yields a
    response object, the handler returns the dictionary of that object, and
    the status of the HTTP response is 500 exactly when the attribute
    [__error_500__] of the object is true; when it is false the status is
    the default 200. *)
Theorem controller_v1_status_follows_error_flag
    (rq : Request) (w : World) (j : option Json) (req : V1Request) (res : Obj) :
  request_json rq = Ok j ->
  V1RequestBase j = Ok req ->
  response w = fresh_response ->
  adapter_answer req (ext w) = Some (Ok res) ->
  fst (controller_v1 rq w) = Some (Ok (RetDict (object_to_dict res))) /\
  (status (response (snd (controller_v1 rq w))) = 500
   <-> __error_500__ res = true) /\
  (__error_500__ res = false ->
   status (response (snd (controller_v1 rq w))) = 200).
Proof.
  intros Hj Hreq Hfresh Hans. unfold adapter_answer in Hans.
  destruct (is_nodriver (DRIVER_SELECTION (ext w))) eqn:Hsel.
  - rewrite (controller_v1_async rq w Hj Hreq Hsel). simpl.
    destruct (run_until_complete (controller_v1_endpoint_nd req) (ext w))
      as [[o x] n]; simpl in Hans; subst o; simpl.
    rewrite Hfresh; simpl.
    destruct (__error_500__ res); repeat split; intros; congruence.
  - rewrite (controller_v1_sync rq w Hj Hreq Hsel). simpl.
    destruct (controller_v1_endpoint req (ext w)) as [o x];
      simpl in Hans; subst o; simpl.
    rewrite Hfresh; simpl.
    destruct (__error_500__ res); repeat split; intros; congruence.
Qed.

(** C8.  When the asynchronous backend is selected, the handler creates the
    coroutine of [controller_v1_endpoint_nd] and hands it to [asyncio.run]:
    a new event loop, used by no earlier request, is created; the handler
    returns only if the coroutine completes on that loop, after the loop has
    been closed, and what it returns is built from the value of the
    coroutine (an exception of the coroutine is re-raised); while the
    coroutine has not completed the handler does not return. *)
Theorem controller_v1_async_runs_to_completion
    (rq : Request) (w : World) (j : option Json) (req : V1Request) :
  request_json rq = Ok j ->
  V1RequestBase j = Ok req ->
  is_nodriver (DRIVER_SELECTION (ext w)) = true ->
  loops_consistent w ->
  let id := loops w in
  let r := fst (controller_v1 rq w) in
  let w' := snd (controller_v1 rq w) in
  ~ In id (loops_opened (trace w)) /\
  loops_consistent w' /\
  match run_until_complete (controller_v1_endpoint_nd req) (ext w) with
  | (Some (Ok res), x, n) =>
      r = Some (Ok (RetDict (object_to_dict res))) /\ ext w' = x /\
      trace w' = trace w ++ [EvAsyncAdapter req; EvLoopNew id; EvLoopClose id n]
  | (Some (Raise e), x, n) =>
      r = Some (Raise e) /\ ext w' = x /\
      trace w' = trace w ++ [EvAsyncAdapter req; EvLoopNew id; EvLoopClose id n]
  | (None, x, _) =>
      r = None /\ ext w' = x /\
      trace w' = trace w ++ [EvAsyncAdapter req; EvLoopNew id]
  end.
Proof.
  intros Hj Hreq Hsel Hcons. unfold loops_consistent in *.
  rewrite (controller_v1_async rq w Hj Hreq Hsel). simpl.
  split.
  - intros Hin. rewrite Forall_forall in Hcons.
    specialize (Hcons _ Hin). lia.
  - assert (Hmono : Forall (fun i => (i < S (loops w))%nat)
                           (loops_opened (trace w))).
    { eapply Forall_impl; [|exact Hcons]. simpl. intros; lia. }
    destruct (run_until_complete (controller_v1_endpoint_nd req) (ext w))
      as [[[[res|e]|] x] n]; simpl;
      (split; [|repeat split]);
      rewrite loops_opened_app; apply Forall_app; split; try exact Hmono;
      simpl; (constructor; [cbv beta; lia|constructor]).
Qed.

(** ** The content handler, case by case *)

(** Without a usable [url] the handler answers at once. *)
Lemma content_no_url (rq : Request) (w : World) :
  truthy (multidict_get "url" (query rq)) = false ->
  content rq w =
    (Some (Ok (RetDict
       (JDict [("error", JStr "Missing 'url' in query parameters.")]))),
     set_response {| status := 400;
                     content_type := content_type (response w) |} w).
Proof.
  intros H. unfold content. rewrite H. reflexivity.
Qed.

(** With a [url] the handler makes one outbound request and answers
    according to its outcome. *)
Lemma content_forward (rq : Request) (w : World) (u : string) :
  multidict_get "url" (query rq) = Some u ->
  u <> EmptyString ->
  content rq w =
    let hdrs := forwarded_headers rq in
    let t := trace w ++ [EvRequestsGet u hdrs] in
    match requests_get u hdrs (ext w) with
    | (Some (Ok resp), x) =>
        (Some (Ok (RetDict (JDict
           [("message", JStr "Request forwarded successfully");
            ("target_url", JStr u);
            ("received_headers",
              JDict [("User-Agent",
                      JStr (header_get "User-Agent" "Unknown" (headers rq)));
                     ("Cookie",
                      JStr (header_get "Cookie" EmptyString (headers rq)))]);
            ("status", JInt (status_code resp));
            ("external_api_response", JStr (text resp))]))),
         {| ext := x;
            response := {| status := status (response w);
                           content_type := "application/json" |};
            loops := loops w; trace := t |})
    | (Some (Raise e), x) =>
        if is_RequestException e
        then (Some (Ok (RetDict (JDict [("error", JStr (str_exn e))]))),
              {| ext := x;
                 response := {| status := 500;
                                content_type := content_type (response w) |};
                 loops := loops w; trace := t |})
        else (Some (Raise e),
              {| ext := x; response := response w; loops := loops w;
                 trace := t |})
    | (None, x) =>
        (None,
         {| ext := x; response := response w; loops := loops w; trace := t |})
    end.
Proof.
  intros Hu Hne. unfold content. rewrite Hu.
  assert (Ht : truthy (Some u) = true).
  { simpl. destruct (String.eqb_spec u EmptyString); [contradiction|reflexivity]. }
  rewrite Ht. simpl.
  unfold try_except, call, bind, log, add_event, set_ext, forwarded_headers.
  simpl.
  destruct (requests_get u _ (ext w)) as [[[resp|e]|] x]; reflexivity.
Qed.

(** C4 (as amended).  For every GET /content request with a non-empty [url]
    query parameter, exactly one outbound request is made, to that URL, and
    it carries a User-Agent and a Cookie header: the inbound value where the
    inbound request has the header, ["Unknown"] resp. the empty string where
    it has not.  When the target answers, the dictionary returned to the
    caller holds the text of the target's response, unchanged, under
    ["external_api_response"]. *)
Theorem content_forwards_headers_and_body
    (rq : Request) (w : World) (u : string) :
  multidict_get "url" (query rq) = Some u ->
  u <> EmptyString ->
  let hdrs := forwarded_headers rq in
  (exists evs,
     trace (snd (content rq w)) = trace w ++ evs /\
     outbound_requests evs = [(u, hdrs)]) /\
  (forall ua, assoc_get "User-Agent" (headers rq) = Some ua ->
              assoc_get "User-Agent" hdrs = Some ua) /\
  (forall ck, assoc_get "Cookie" (headers rq) = Some ck ->
              assoc_get "Cookie" hdrs = Some ck) /\
  (assoc_get "User-Agent" (headers rq) = None ->
   assoc_get "User-Agent" hdrs = Some "Unknown") /\
  (assoc_get "Cookie" (headers rq) = None ->
   assoc_get "Cookie" hdrs = Some EmptyString) /\
  (forall resp,
     fst (requests_get u hdrs (ext w)) = Some (Ok resp) ->
     exists d,
       fst (content rq w) = Some (Ok (RetDict d)) /\
       dict_get "external_api_response" d = Some (JStr (text resp))).
Proof.
  intros Hu Hne hdrs. rewrite (content_forward rq w Hu Hne). simpl.
  fold hdrs.
  split; [|repeat split].
  - exists [EvRequestsGet u hdrs].
    destruct (requests_get u hdrs (ext w)) as [[[resp|e]|] x]; simpl;
      try destruct (is_RequestException e); simpl; split; reflexivity.
  - intros ua H. unfold hdrs, forwarded_headers, header_get. rewrite H.
    reflexivity.
  - intros ck H. unfold hdrs, forwarded_headers, header_get. rewrite H.
    reflexivity.
  - intros H. unfold hdrs, forwarded_headers, header_get. rewrite H.
    reflexivity.
  - intros H. unfold hdrs, forwarded_headers, header_get. rewrite H.
    reflexivity.
  - intros resp H.
    destruct (requests_get u hdrs (ext w)) as [o x]. simpl in H. subst o.
    eexists. split; reflexivity.
Qed.

(** C5.  For every GET /content request whose [url] query parameter is
    absent or empty, the handler sets the status 400 and returns a
    dictionary with the field ["error"]; it makes no outbound request and
    calls no collaborator. *)
Theorem content_missing_url (rq : Request) (w : World) :
  multidict_get "url" (query rq) = None \/
  multidict_get "url" (query rq) = Some EmptyString ->
  exists d,
    fst (content rq w) = Some (Ok (RetDict d)) /\
    dict_keys d = ["error"] /\
    dict_get "error" d = Some (JStr "Missing 'url' in query parameters.") /\
    status (response (snd (content rq w))) = 400 /\
    outbound_requests (trace (snd (content rq w)))
      = outbound_requests (trace w) /\
    trace (snd (content rq w)) = trace w /\
    ext (snd (content rq w)) = ext w.
Proof.
  intros H.
  assert (Ht : truthy (multidict_get "url" (query rq)) = false).
  { destruct H as [H|H]; rewrite H; reflexivity. }
  rewrite (content_no_url rq w Ht). simpl.
  eexists. repeat split.
Qed.

(** C6.  For every GET /content request whose outbound request raises a
    [RequestException], the handler sets the status 500 and returns a
    dictionary whose only field, ["error"], is the text of the exception.
    No solve adapter takes part. *)
Theorem content_forwarding_failure
    (rq : Request) (w : World) (u msg : string) :
  multidict_get "url" (query rq) = Some u ->
  u <> EmptyString ->
  fst (requests_get u (forwarded_headers rq) (ext w))
    = Some (Raise (RequestException msg)) ->
  fst (content rq w) = Some (Ok (RetDict (JDict [("error", JStr msg)]))) /\
  status (response (snd (content rq w))) = 500 /\
  exists evs,
    trace (snd (content rq w)) = trace w ++ evs /\
    adapters_invoked evs = [].
Proof.
  intros Hu Hne H. rewrite (content_forward rq w Hu Hne). simpl.
  destruct (requests_get u (forwarded_headers rq) (ext w)) as [o x].
  simpl in H. subst o. simpl.
  repeat split. eexists. split; reflexivity.
Qed.

(** C10.  For every GET /content request whose outbound request completes,
    whatever the status of the target, the status of the handler's response
    stays the default 200; the returned dictionary has the message
    ["Request forwarded successfully"] and reports the target's status
    under ["status"]. *)
Theorem content_target_status_in_body
    (rq : Request) (w : World) (u : string) (resp : ExternalResponse) :
  multidict_get "url" (query rq) = Some u ->
  u <> EmptyString ->
  response w = fresh_response ->
  fst (requests_get u (forwarded_headers rq) (ext w)) = Some (Ok resp) ->
  status (response (snd (content rq w))) = 200 /\
  exists d,
    fst (content rq w) = Some (Ok (RetDict d)) /\
    dict_get "message" d = Some (JStr "Request forwarded successfully") /\
    dict_get "status" d = Some (JInt (status_code resp)).
Proof.
  intros Hu Hne Hfresh H. rewrite (content_forward rq w Hu Hne). simpl.
  destruct (requests_get u (forwarded_headers rq) (ext w)) as [o x].
  simpl in H. subst o. simpl. rewrite Hfresh. simpl.
  split; [reflexivity|]. eexists. repeat split.
Qed.

(** ** Unmatched routes *)

Lemma default_error_handler_eq (code : Z) (msg : string) (w : World) :
  default_error_handler code msg w =
    (Some (Ok (RetStr (json_dumps (JDict [("error", JStr msg);
                                          ("status_code", JInt code)])))),
     set_response {| status := status (response w);
                     content_type := "application/json" |} w).
Proof. reflexivity. Qed.

(** The response Bottle sends for an [HTTPError]. *)
Lemma error_response_eq (code : Z) (msg : string) (w : World) :
  error_response code msg w =
    (Some (Ok {| http_status := code;
                 http_content_type := "application/json";
                 http_body := json_dumps (JDict [("error", JStr msg);
                                                 ("status_code", JInt code)]) |}),
     set_response {| status := code; content_type := "application/json" |} w).
Proof. reflexivity. Qed.

Lemma lookup_route_unregistered (m p : string) :
  registered p = false -> lookup_route m p routes = None.
Proof.
  unfold registered, routes. intros H. cbn [existsb fst snd] in H.
  repeat (apply orb_false_elim in H; destruct H as [?H H]).
  cbn [lookup_route].
  repeat match goal with
         | E : String.eqb _ p = false |- _ => rewrite E; clear E
         end.
  rewrite !andb_false_r. reflexivity.
Qed.

Lemma first_route_unregistered (ms : list string) (p : string) :
  registered p = false -> first_route ms p = None.
Proof.
  intros H. induction ms as [|m ms IH]; cbn [first_route]; [reflexivity|].
  rewrite lookup_route_unregistered by exact H. exact IH.
Qed.

Lemma allowed_methods_unregistered (tried : list string) (p : string) :
  registered p = false -> allowed_methods tried p = [].
Proof.
  unfold registered, allowed_methods, routes. intros H.
  cbn [existsb fst snd] in H.
  repeat (apply orb_false_elim in H; destruct H as [?H H]).
  cbn [filter fst snd].
  repeat match goal with
         | E : String.eqb _ p = false |- _ => rewrite E; clear E
         end.
  reflexivity.
Qed.

Lemma router_match_unregistered (rq : Request) :
  registered (route_path rq) = false ->
  router_match rq
    = Raise (HTTPError 404 ("Not found: " ++ repr (route_path rq))%string).
Proof.
  intros H. unfold router_match. fold (route_path rq).
  rewrite first_route_unregistered by exact H.
  rewrite allowed_methods_unregistered by exact H. reflexivity.
Qed.

Variable plugins : Proc Ret -> Proc Ret.

(** C7.  For every request whose path matches no registered route, whatever
    the plugins, the response has status 404 and content type
    [application/json], and its body is the JSON serialisation of a
    dictionary with exactly the fields ["error"], the text of the error, and
    ["status_code"], 404.  No handler runs. *)
Theorem unmatched_route_json_404 (rq : Request) (w : World) :
  registered (route_path rq) = false ->
  let envelope :=
    JDict [("error", JStr ("Not found: " ++ repr (route_path rq))%string);
           ("status_code", JInt 404)] in
  fst (handle plugins rq w)
    = Some (Ok {| http_status := 404;
                  http_content_type := "application/json";
                  http_body := json_dumps envelope |}) /\
  dict_keys envelope = ["error"; "status_code"] /\
  dict_get "status_code" envelope = Some (JInt 404) /\
  trace (snd (handle plugins rq w)) = trace w.
Proof.
  intros H envelope. unfold handle, bind, bind_response.
  rewrite router_match_unregistered by exact H. rewrite error_response_eq.
  repeat split.
Qed.

(** A dictionary returned through the plugins leaves the server as a JSON
    body, with the status the callback has set. *)
Lemma handle_dict_is_json
    (rq : Request) (w w' : World) (h : Handler) (d : Json) :
  router_match rq = Ok h ->
  plugins (callback h rq) (set_response fresh_response w)
    = (Some (Ok (RetDict d)), w') ->
  fst (handle plugins rq w)
    = Some (Ok {| http_status := status (response w');
                  http_content_type := "application/json";
                  http_body := json_dumps d |}).
Proof.
  intros Hr Hcb. unfold handle, bind, bind_response. rewrite Hr. simpl.
  rewrite Hcb. reflexivity.
Qed.

(** ** A logic of traces *)

Lemma emits_weaken {A} (P Q : Event -> Prop) (c : Proc A) :
  (forall ev, P ev -> Q ev) -> emits P c -> emits Q c.
Proof.
  intros HPQ Hc w. destruct (Hc w) as [evs [Ht HF]].
  exists evs. split; [exact Ht|]. eapply Forall_impl; eauto.
Qed.

Lemma emits_silent {A} (P : Event -> Prop) (c : Proc A) :
  (forall w, trace (snd (c w)) = trace w) -> emits P c.
Proof.
  intros H w. exists []. rewrite app_nil_r. split; [apply H|constructor].
Qed.

Lemma emits_ret {A} P (a : A) : emits P (ret a).
Proof. apply emits_silent. reflexivity. Qed.

Lemma emits_raise {A} P (e : Exn) : emits P (@raise D C A e).
Proof. apply emits_silent. reflexivity. Qed.

Lemma emits_lift {A} P (o : Outcome A) : emits P (lift o).
Proof. destruct o; [apply emits_ret|apply emits_raise]. Qed.

Lemma emits_read {A} P (f : Ext -> A) : emits P (read f).
Proof. apply emits_silent. reflexivity. Qed.

Lemma emits_set_status P (s : Z) : emits P (set_status s).
Proof. apply emits_silent. reflexivity. Qed.

Lemma emits_set_content_type P (t : string) : emits P (set_content_type t).
Proof. apply emits_silent. reflexivity. Qed.

Lemma emits_bind_response P : emits P bind_response.
Proof. apply emits_silent. reflexivity. Qed.

Lemma emits_reply P (b : string) : emits P (reply b).
Proof. apply emits_silent. reflexivity. Qed.

Lemma emits_log (P : Event -> Prop) (ev : Event) : P ev -> emits P (log ev).
Proof.
  intros H w. exists [ev]. split; [reflexivity|]. constructor; [exact H|constructor].
Qed.

Lemma emits_bind {A B} P (c : Proc A) (k : A -> Proc B) :
  emits P c -> (forall a, emits P (k a)) -> emits P (bind c k).
Proof.
  intros Hc Hk w. unfold bind.
  destruct (Hc w) as [e1 [H1 F1]].
  destruct (c w) as [[[a|e]|] w1]; simpl in *.
  - destruct (Hk a w1) as [e2 [H2 F2]].
    exists (e1 ++ e2). rewrite H2, H1, app_assoc. split; [reflexivity|].
    apply Forall_app. split; assumption.
  - exists e1. split; assumption.
  - exists e1. split; assumption.
Qed.

Lemma emits_try_except {A} P (c : Proc A) handles (h : Exn -> Proc A) :
  emits P c -> (forall e, emits P (h e)) -> emits P (try_except c handles h).
Proof.
  intros Hc Hh w. unfold try_except.
  destruct (Hc w) as [e1 [H1 F1]].
  destruct (c w) as [[[a|e]|] w1]; simpl in *;
    try (exists e1; split; assumption).
  destruct (handles e); [|exists e1; split; assumption].
  destruct (Hh e w1) as [e2 [H2 F2]].
  exists (e1 ++ e2). rewrite H2, H1, app_assoc. split; [reflexivity|].
  apply Forall_app. split; assumption.
Qed.

Lemma emits_call {A} (P : Event -> Prop) (ev : Event)
    (f : Ext -> option (Outcome A) * Ext) :
  P ev -> emits P (call ev f).
Proof.
  intros H. unfold call. apply emits_bind; [apply emits_log; exact H|].
  intros _. apply emits_silent. reflexivity.
Qed.

Lemma emits_asyncio_run {A} (P : Event -> Prop) (coro : Coro Ext A) :
  (forall id, P (EvLoopNew id)) ->
  (forall id n, P (EvLoopClose id n)) ->
  emits P (asyncio_run coro).
Proof.
  intros Hnew Hclose w. unfold asyncio_run. simpl.
  destruct (run_until_complete coro (ext w)) as [[[r|] x] n]; simpl.
  - exists [EvLoopNew (loops w); EvLoopClose (loops w) n].
    rewrite <- app_assoc. split; [reflexivity|]. repeat constructor; auto.
  - exists [EvLoopNew (loops w)]. split; [reflexivity|].
    repeat constructor; auto.
Qed.

Lemma emits_if {A} P (b : bool) (c1 c2 : Proc A) :
  emits P c1 -> emits P c2 -> emits P (if b then c1 else c2).
Proof. destruct b; auto. Qed.

(** Every handler of the module only appends to the trace. *)
Lemma emits_callback (h : Handler) (rq : Request) :
  emits (fun _ => True) (callback h rq).
Proof.
  destruct h; simpl.
  - unfold index. apply emits_bind; [apply emits_call; exact I|].
    intros; apply emits_ret.
  - unfold health. apply emits_bind; [apply emits_call; exact I|].
    intros; apply emits_ret.
  - unfold controller_v1.
    apply emits_bind; [apply emits_lift|intros j].
    apply emits_bind; [apply emits_lift|intros req].
    apply emits_bind; [apply emits_read|intros sel].
    apply emits_bind.
    + apply emits_if.
      * apply emits_bind; [apply emits_log; exact I|intros _].
        apply emits_asyncio_run; intros; exact I.
      * apply emits_call; exact I.
    + intros res. apply emits_bind.
      * apply emits_if; [apply emits_set_status|apply emits_ret].
      * intros _. apply emits_ret.
  - unfold content. apply emits_if.
    + apply emits_bind; [apply emits_set_status|intros; apply emits_ret].
    + apply emits_try_except.
      * apply emits_bind; [apply emits_call; exact I|intros resp].
        apply emits_bind; [apply emits_set_content_type|intros; apply emits_ret].
      * intros e.
        apply emits_bind; [apply emits_set_status|intros; apply emits_ret].
Qed.

Lemma emits_error_response (code : Z) (msg : string) :
  emits (fun _ => True) (error_response code msg).
Proof. apply emits_silent. reflexivity. Qed.

(** With plugins that do not rewrite the log, neither does the application. *)
Lemma emits_handle (rq : Request) :
  append_only plugins -> emits (fun _ => True) (handle plugins rq).
Proof.
  intros Hp. unfold handle.
  apply emits_bind; [apply emits_bind_response|intros _].
  destruct (router_match rq) as [h|e].
  - intros w. destruct (Hp _ (emits_callback h rq) w) as [e1 [H1 F1]].
    destruct (plugins (callback h rq) w) as [[[[d|s]|e]|] w1]; simpl in *;
      try (exists e1; split; assumption).
    destruct e; simpl; exists e1; split; assumption.
  - destruct e; try apply emits_raise. apply emits_error_response.
Qed.

Lemma emits_serve (traffic : list Request) :
  append_only plugins -> emits (fun _ => True) (serve plugins traffic).
Proof.
  intros Hp. induction traffic as [|rq rest IH]; simpl.
  - apply emits_ret.
  - apply emits_bind; [apply emits_log; exact I|intros _].
    apply emits_bind; [apply emits_handle; exact Hp|intros r].
    apply emits_bind; [apply emits_log; exact I|intros _].
    exact IH.
Qed.

Lemma emits_start_server (host : string) (port : Z) (traffic : list Request) :
  append_only plugins ->
  emits (fun _ => True) (start_server plugins host port traffic).
Proof.
  intros Hp. unfold start_server, install, setup, run.
  repeat (apply emits_bind;
          [first [apply emits_log; exact I | apply emits_call; exact I]
          |intros _]).
  apply emits_serve. exact Hp.
Qed.

(** The configuration block logs nothing but its own calls. *)
Lemma emits_startup_config (p : Process) :
  emits (fun ev => quiet ev = true) (startup_config p).
Proof.
  unfold startup_config, setup. cbv zeta.
  repeat first
    [ apply emits_call; reflexivity
    | apply emits_bind; [|intros ?]
    | apply emits_if
    | apply emits_raise
    | apply emits_ret
    | apply emits_lift ].
Qed.

(** The self-test block starts the self-test of the selected backend, and of
    no other. *)
Lemma self_test_trace (w : World) :
  exists evs,
    trace (snd (self_test w))
      = trace w ++ self_test_event (DRIVER_SELECTION (ext w)) :: evs /\
    Forall (fun ev => quiet ev = true) evs.
Proof.
  unfold self_test, self_test_event, bind, read. simpl.
  destruct (is_nodriver (DRIVER_SELECTION (ext w))).
  - unfold asyncio_run, log, add_event, set_ext. simpl.
    destruct (run_until_complete test_browser_installation_nd (ext w))
      as [[[r|] x] n]; simpl.
    + exists [EvLoopNew (loops w); EvLoopClose (loops w) n].
      rewrite <- !app_assoc. split; [reflexivity|repeat constructor].
    + exists [EvLoopNew (loops w)].
      rewrite <- !app_assoc. split; [reflexivity|repeat constructor].
  - unfold call, bind, log. simpl. exists []. split; [reflexivity|constructor].
Qed.

(** ** The start-up script *)

Lemma quiet_not_serving (ev : Event) : quiet ev = true -> serving ev = false.
Proof.
  unfold quiet, serving. destruct ev; simpl; intros H; congruence.
Qed.

Lemma self_test_event_not_serving (sel : option string) :
  serving (self_test_event sel) = false.
Proof. unfold self_test_event. destruct (is_nodriver sel); reflexivity. Qed.

Lemma Forall_quiet_not_serving (l : list Event) :
  Forall (fun ev => quiet ev = true) l ->
  Forall (fun ev => serving ev = false) l.
Proof.
  intros H. eapply Forall_impl; [|exact H]. apply quiet_not_serving.
Qed.

(** A serving event cannot occur in a list that has none. *)
Lemma no_serving_split (l pre post : list Event) (ev : Event) :
  Forall (fun ev => serving ev = false) l ->
  l = pre ++ ev :: post ->
  serving ev = true -> False.
Proof.
  intros HF -> Hev. apply Forall_app in HF. destruct HF as [_ HF].
  inversion HF; subst. congruence.
Qed.

(** A serving event that occurs after a prefix without any comes after every
    event of that prefix. *)
Lemma serving_after_prefix (l1 l2 pre post : list Event) (ev : Event) :
  Forall (fun ev => serving ev = false) l1 ->
  l1 ++ l2 = pre ++ ev :: post ->
  serving ev = true ->
  forall x, In x l1 -> In x pre.
Proof.
  revert pre. induction l1 as [|a l1 IH]; intros pre HF Heq Hev x Hin.
  - destruct Hin.
  - inversion HF as [|? ? Ha HF']; subst.
    destruct pre as [|b pre]; simpl in Heq.
    + injection Heq as -> _. congruence.
    + injection Heq as -> Heq. destruct Hin as [->|Hin].
      * left; reflexivity.
      * right. eapply IH; eauto.
Qed.

(** C9.  In every run of the start-up script, whatever traffic arrives: the
    server starts accepting traffic, and accepts a request, only after the
    self-test of the backend selected at that moment has been started and
    has returned normally; and when that self-test raises or never returns,
    the script ends the same way (the process terminates with the exception,
    or hangs) without the server having started. *)
Theorem main_self_test_before_serving
    (p : Process) (traffic : list Request) (w : World) :
  append_only plugins ->
  exists evs,
    trace (snd (main plugins p traffic w)) = trace w ++ evs /\
    (forall pre ev post,
        evs = pre ++ ev :: post ->
        serving ev = true ->
        exists hp w1,
          startup_config p w = (Some (Ok hp), w1) /\
          fst (self_test w1) = Some (Ok tt) /\
          In (self_test_event (DRIVER_SELECTION (ext w1))) pre) /\
    (forall hp w1,
        startup_config p w = (Some (Ok hp), w1) ->
        fst (self_test w1) <> Some (Ok tt) ->
        main plugins p traffic w = self_test w1 /\
        Forall (fun ev => serving ev = false) evs).
Proof.
  intros Hp. unfold main, bind.
  destruct (emits_startup_config p w) as [e1 [H1 F1]].
  apply Forall_quiet_not_serving in F1.
  destruct (startup_config p w) as [[[hp|e]|] w1] eqn:Hcfg; simpl in H1.
  - destruct (self_test_trace w1) as [e2 [H2 F2]].
    apply Forall_quiet_not_serving in F2.
    set (tev := self_test_event (DRIVER_SELECTION (ext w1))) in *.
    assert (Fpre : Forall (fun ev => serving ev = false) (e1 ++ tev :: e2)).
    { apply Forall_app. split; [exact F1|].
      constructor; [apply self_test_event_not_serving|exact F2]. }
    destruct (self_test w1) as [[[[]|e]|] w2] eqn:Htest; simpl in H2.
    + destruct (emits_start_server (fst hp) (snd hp) traffic Hp w2)
        as [e3 [H3 _]].
      exists ((e1 ++ tev :: e2) ++ e3). split; [|split].
      * rewrite H3, H2, H1. rewrite <- !app_assoc. reflexivity.
      * intros pre ev post Hsplit Hev. exists hp, w1.
        split; [reflexivity|]. rewrite Htest. split; [reflexivity|].
        eapply serving_after_prefix; eauto.
        apply in_or_app. right. left. reflexivity.
      * intros hp' w1' Heq Hfail. injection Heq as <- <-.
        rewrite Htest in Hfail. simpl in Hfail. congruence.
    + exists (e1 ++ tev :: e2). split; [|split].
      * simpl. rewrite H2, H1. rewrite <- !app_assoc. reflexivity.
      * intros pre ev post Hsplit Hev. exfalso.
        eapply no_serving_split; eauto.
      * intros hp' w1' Heq _. injection Heq as <- <-.
        rewrite Htest. split; [reflexivity|exact Fpre].
    + exists (e1 ++ tev :: e2). split; [|split].
      * simpl. rewrite H2, H1. rewrite <- !app_assoc. reflexivity.
      * intros pre ev post Hsplit Hev. exfalso.
        eapply no_serving_split; eauto.
      * intros hp' w1' Heq _. injection Heq as <- <-.
        rewrite Htest. split; [reflexivity|exact Fpre].
  - exists e1. split; [exact H1|split].
    + intros pre ev post Hsplit Hev. exfalso. eapply no_serving_split; eauto.
    + intros hp' w1' Heq. discriminate Heq.
  - exists e1. split; [exact H1|split].
    + intros pre ev post Hsplit Hev. exfalso. eapply no_serving_split; eauto.
    + intros hp' w1' Heq. discriminate Heq.
Qed.

End Properties.

(* ================================================================== *)
(** * Properties that rest on the request DTO layer and the error layer *)

Section SpecProperties.

Variable known_commands : list string.
Variable well_formed_url : string -> bool.
Variable default_timeout : Z.

Let dto : Dto := SpecDto known_commands well_formed_url default_timeout.
#[local] Existing Instance dto.

Context {C : @Collaborators dto}.

(** Validation fails with a [ValidationError] and nothing else. *)
Lemma validate_raises_ValidationError (j : option Json) (e : Exn) :
  validate known_commands well_formed_url default_timeout j = Raise e ->
  exists f, e = ValidationError f.
Proof.
  unfold validate. intros H.
  repeat match type of H with
         | context [match ?x with _ => _ end] => destruct x
         end;
    try discriminate H; injection H as <-; eexists; reflexivity.
Qed.

(** An unknown command does not pass validation. *)
Lemma unknown_command_malformed (rq : Request) :
  unknown_command known_commands rq = true ->
  malformed known_commands well_formed_url default_timeout rq = true.
Proof.
  unfold unknown_command, command_of, malformed, request_json, validate.
  destruct (body rq) as [| |[| | | | |d]]; try discriminate.
  destruct (assoc_get "cmd" d) as [[| | |c| |]|]; try discriminate.
  intros H. apply negb_true_iff in H. rewrite H. reflexivity.
Qed.

(** A malformed request makes the handler raise before it does anything,
    with an exception of status 400. *)
Lemma malformed_raises (rq : Request) (w : World) :
  malformed known_commands well_formed_url default_timeout rq = true ->
  exists e,
    controller_v1 rq w = (Some (Raise e), w) /\
    failure_status e = 400 /\
    (forall c, e <> SystemExit c).
Proof.
  unfold malformed. intros H.
  destruct (request_json rq) as [j|e] eqn:Hj.
  - destruct (validate known_commands well_formed_url default_timeout j)
      as [req|e] eqn:Hv; [discriminate H|].
    destruct (validate_raises_ValidationError _ Hv) as [f ->].
    exists (ValidationError f). split; [|split].
    + eapply controller_v1_dto_raises; eauto.
    + reflexivity.
    + intros c; discriminate.
  - exists e. split; [|split].
    + apply controller_v1_json_raises. exact Hj.
    + unfold request_json in Hj. destruct (body rq); try discriminate Hj.
      injection Hj as <-. reflexivity.
    + unfold request_json in Hj. destruct (body rq); try discriminate Hj.
      injection Hj as <-. intros c; discriminate.
Qed.

Lemma router_match_post_v1 (rq : Request) :
  method rq = "POST" -> path rq = "/v1" -> router_match rq = Ok h_controller_v1.
Proof.
  intros Hm Hp. unfold router_match. rewrite Hm, Hp. reflexivity.
Qed.

(** C3.  For every POST /v1 request whose body is malformed or whose command
    is not a known one, the handler raises before it invokes any adapter:
    it leaves the trace and the state of the collaborators as they were;
    and under the error layer the response has status 400. *)
Theorem controller_v1_rejects_before_backend (rq : Request) (w : World) :
  method rq = "POST" ->
  path rq = "/v1" ->
  malformed known_commands well_formed_url default_timeout rq = true \/
  unknown_command known_commands rq = true ->
  (exists e, controller_v1 rq w = (Some (Raise e), w)) /\
  (exists r, fst (handle spec_error_plugin rq w) = Some (Ok r) /\
             http_status r = 400) /\
  adapters_invoked (trace (snd (handle spec_error_plugin rq w)))
    = adapters_invoked (trace w) /\
  trace (snd (handle spec_error_plugin rq w)) = trace w /\
  ext (snd (handle spec_error_plugin rq w)) = ext w.
Proof.
  intros Hm Hp Hbad.
  assert (Hmal : malformed known_commands well_formed_url default_timeout rq
                 = true).
  { destruct Hbad as [H|H]; [exact H|apply unknown_command_malformed; exact H]. }
  split.
  - destruct (malformed_raises rq w Hmal) as [e [He _]]. exists e. exact He.
  - unfold handle, bind, bind_response.
    rewrite (router_match_post_v1 rq Hm Hp). simpl.
    destruct (malformed_raises rq (set_response fresh_response w) Hmal)
      as [e [He [Hst Hexit]]].
    unfold spec_error_plugin, try_except. rewrite He.
    destruct e; simpl in Hst; try discriminate Hst; subst; simpl;
      repeat split; eexists; split; reflexivity.
Qed.

End SpecProperties.

(* ================================================================== *)
(** * The properties on the test doubles *)

(** C1, as stated, fails: a POST /v1 request whose body is not valid JSON
    makes [request.json] raise, the handler raises with it, and neither
    adapter is invoked, whereas the claim asks for exactly one. *)
Lemma controller_v1_invalid_json_invokes_no_adapter :
  let rq := Demo.post_v1 InvalidJson in
  let w := Demo.world (Some "nodriver") true in
  method rq = "POST" /\ path rq = "/v1" /\
  controller_v1 rq w = (Some (Raise (HTTPError 400 "Invalid JSON")), w) /\
  adapters_invoked (trace (snd (controller_v1 rq w))) = [] /\
  ~ (exists evs req,
       trace (snd (controller_v1 rq w)) = trace w ++ evs /\
       adapters_invoked evs
         = [(selected_adapter (DRIVER_SELECTION (ext w)), req)]).
Proof.
  repeat split.
  intros [evs [req [Ht Ha]]]. simpl in Ht. subst evs. discriminate Ha.
Defined.

Lemma controller_v1_dispatches_selected_adapter_witness :
  let rq := Demo.post_v1 (Demo.solve_body "request.get") in
  let w := Demo.world (Some "nodriver") true in
  let j := Some (Demo.solve_json "request.get") in
  let req : @V1Request Demo.dto := Demo.solve_request "request.get" in
  request_json rq = Ok j /\
  @V1RequestBase Demo.dto j = Ok req /\
  exists evs,
    trace (snd (controller_v1 rq w)) = trace w ++ evs /\
    adapters_invoked evs
      = [(selected_adapter (DRIVER_SELECTION (ext w)), req)].
Proof.
  split; [reflexivity|]. split; [reflexivity|].
  apply (@controller_v1_dispatches_selected_adapter Demo.dto Demo.collaborators
           (Demo.post_v1 (Demo.solve_body "request.get"))
           (Demo.world (Some "nodriver") true)
           (Some (Demo.solve_json "request.get"))
           (Demo.solve_request "request.get"));
    reflexivity.
Defined.

Lemma controller_v1_status_follows_error_flag_witness :
  let rq := Demo.post_v1 (Demo.solve_body "sessions.destroy") in
  let w := Demo.world None true in
  let j := Some (Demo.solve_json "sessions.destroy") in
  let req : @V1Request Demo.dto := Demo.solve_request "sessions.destroy" in
  let res : @Obj Demo.dto Demo.collaborators := Demo.error_obj in
  request_json rq = Ok j /\
  @V1RequestBase Demo.dto j = Ok req /\
  response w = fresh_response /\
  adapter_answer req (ext w) = Some (Ok res) /\
  fst (controller_v1 rq w) = Some (Ok (RetDict (object_to_dict res))) /\
  (status (response (snd (controller_v1 rq w))) = 500
   <-> __error_500__ res = true) /\
  (__error_500__ res = false ->
   status (response (snd (controller_v1 rq w))) = 200).
Proof.
  split; [reflexivity|]. split; [reflexivity|]. split; [reflexivity|].
  split; [reflexivity|].
  apply (@controller_v1_status_follows_error_flag Demo.dto Demo.collaborators
           (Demo.post_v1 (Demo.solve_body "sessions.destroy"))
           (Demo.world None true)
           (Some (Demo.solve_json "sessions.destroy"))
           (Demo.solve_request "sessions.destroy")
           Demo.error_obj);
    reflexivity.
Defined.

Lemma controller_v1_rejects_before_backend_witness :
  let rq := Demo.post_v1 (Demo.solve_body "bogus") in
  let w := Demo.world None true in
  method rq = "POST" /\
  path rq = "/v1" /\
  unknown_command Demo.commands rq = true /\
  (exists e, controller_v1 rq w = (Some (Raise e), w)) /\
  (exists r, fst (handle spec_error_plugin rq w) = Some (Ok r) /\
             http_status r = 400) /\
  adapters_invoked (trace (snd (handle spec_error_plugin rq w)))
    = adapters_invoked (trace w) /\
  trace (snd (handle spec_error_plugin rq w)) = trace w /\
  ext (snd (handle spec_error_plugin rq w)) = ext w.
Proof.
  split; [reflexivity|]. split; [reflexivity|]. split; [reflexivity|].
  apply (@controller_v1_rejects_before_backend
           Demo.commands Demo.url_ok 60000 Demo.collaborators
           (Demo.post_v1 (Demo.solve_body "bogus")) (Demo.world None true));
    [reflexivity|reflexivity|right; reflexivity].
Defined.

(** C4, as stated, fails: a GET /content request that has a [url] but
    neither a User-Agent nor a Cookie header is forwarded with the headers
    [User-Agent: Unknown] and an empty Cookie, which are not values of the
    inbound request. *)
Lemma content_absent_headers_are_defaulted :
  let rq := Demo.get_request "/content" [("url", "http://example.test")] [] in
  let w := Demo.world None true in
  assoc_get "User-Agent" (headers rq) = None /\
  assoc_get "Cookie" (headers rq) = None /\
  outbound_requests (trace (snd (content rq w)))
    = [("http://example.test",
        [("User-Agent", "Unknown"); ("Cookie", EmptyString)])] /\
  ~ (forall u hdrs name,
       In (u, hdrs) (outbound_requests (trace (snd (content rq w)))) ->
       In name ["User-Agent"; "Cookie"] ->
       assoc_get name hdrs = assoc_get name (headers rq)).
Proof.
  repeat split.
  intros H.
  specialize (H "http://example.test"
                [("User-Agent", "Unknown"); ("Cookie", EmptyString)]
                "User-Agent" (or_introl eq_refl) (or_introl eq_refl)).
  discriminate H.
Defined.

Lemma content_forwards_headers_and_body_witness :
  let rq := Demo.get_request "/content" [("url", "http://example.test")]
              [("User-Agent", "curl/8.0"); ("Cookie", "a=b")] in
  let w := Demo.world None true in
  let u := "http://example.test" in
  multidict_get "url" (query rq) = Some u /\
  u <> EmptyString /\
  outbound_requests (trace (snd (content rq w)))
    = [(u, [("User-Agent", "curl/8.0"); ("Cookie", "a=b")])] /\
  exists d,
    fst (content rq w) = Some (Ok (RetDict d)) /\
    dict_get "external_api_response" d = Some (JStr "stub body").
Proof.
  split; [reflexivity|]. split; [discriminate|].
  destruct (@content_forwards_headers_and_body Demo.dto Demo.collaborators
              (Demo.get_request "/content" [("url", "http://example.test")]
                 [("User-Agent", "curl/8.0"); ("Cookie", "a=b")])
              (Demo.world None true) "http://example.test"
              eq_refl ltac:(discriminate))
    as [_ [_ [_ [_ [_ Hbody]]]]].
  split; [reflexivity|].
  exact (Hbody {| status_code := 404; text := "stub body" |} eq_refl).
Defined.

Lemma content_missing_url_witness :
  let rq := Demo.get_request "/content" [("url", EmptyString)] [] in
  let w := Demo.world None true in
  multidict_get "url" (query rq) = Some EmptyString /\
  exists d,
    fst (content rq w) = Some (Ok (RetDict d)) /\
    dict_keys d = ["error"] /\
    dict_get "error" d = Some (JStr "Missing 'url' in query parameters.") /\
    status (response (snd (content rq w))) = 400 /\
    outbound_requests (trace (snd (content rq w)))
      = outbound_requests (trace w) /\
    trace (snd (content rq w)) = trace w /\
    ext (snd (content rq w)) = ext w.
Proof.
  split; [reflexivity|].
  apply (@content_missing_url Demo.dto Demo.collaborators
           (Demo.get_request "/content" [("url", EmptyString)] [])
           (Demo.world None true)).
  right. reflexivity.
Defined.

Lemma content_forwarding_failure_witness :
  let rq := Demo.get_request "/content" [("url", "http://unreachable.test")]
              [("Cookie", "a=b")] in
  let w := Demo.world None true in
  let u := "http://unreachable.test" in
  multidict_get "url" (query rq) = Some u /\
  u <> EmptyString /\
  fst (requests_get u (forwarded_headers rq) (ext w))
    = Some (Raise (RequestException "connection refused")) /\
  fst (content rq w)
    = Some (Ok (RetDict (JDict [("error", JStr "connection refused")]))) /\
  status (response (snd (content rq w))) = 500 /\
  exists evs,
    trace (snd (content rq w)) = trace w ++ evs /\
    adapters_invoked evs = [].
Proof.
  split; [reflexivity|]. split; [discriminate|]. split; [reflexivity|].
  apply (@content_forwarding_failure Demo.dto Demo.collaborators
           (Demo.get_request "/content" [("url", "http://unreachable.test")]
              [("Cookie", "a=b")])
           (Demo.world None true) "http://unreachable.test"
           "connection refused");
    [reflexivity|discriminate|reflexivity].
Defined.

Lemma content_target_status_in_body_witness :
  let rq := Demo.get_request "/content" [("url", "http://example.test")] [] in
  let w := Demo.world None true in
  let u := "http://example.test" in
  let resp := {| status_code := 404; text := "stub body" |} in
  multidict_get "url" (query rq) = Some u /\
  u <> EmptyString /\
  response w = fresh_response /\
  fst (requests_get u (forwarded_headers rq) (ext w)) = Some (Ok resp) /\
  status (response (snd (content rq w))) = 200 /\
  exists d,
    fst (content rq w) = Some (Ok (RetDict d)) /\
    dict_get "message" d = Some (JStr "Request forwarded successfully") /\
    dict_get "status" d = Some (JInt 404).
Proof.
  split; [reflexivity|]. split; [discriminate|]. split; [reflexivity|].
  split; [reflexivity|].
  apply (@content_target_status_in_body Demo.dto Demo.collaborators
           (Demo.get_request "/content" [("url", "http://example.test")] [])
           (Demo.world None true) "http://example.test"
           {| status_code := 404; text := "stub body" |});
    [reflexivity|discriminate|reflexivity|reflexivity].
Defined.

Lemma unmatched_route_json_404_witness :
  let rq := Demo.get_request "/nope" [] [] in
  let w := Demo.world None true in
  registered (route_path rq) = false /\
  fst (handle Demo.no_plugins rq w)
    = Some (Ok {| http_status := 404;
                  http_content_type := "application/json";
                  http_body :=
                    @json_dumps Demo.dto Demo.collaborators
                      (JDict [("error", JStr "Not found: '/nope'");
                              ("status_code", JInt 404)]) |}).
Proof.
  split; [reflexivity|].
  apply (@unmatched_route_json_404 Demo.dto Demo.collaborators Demo.no_plugins
           (Demo.get_request "/nope" [] []) (Demo.world None true)).
  reflexivity.
Defined.

Lemma controller_v1_async_runs_to_completion_witness :
  let rq := Demo.post_v1 (Demo.solve_body "request.get") in
  let w := Demo.world (Some "nodriver") true in
  let j := Some (Demo.solve_json "request.get") in
  let req : @V1Request Demo.dto := Demo.solve_request "request.get" in
  let res : @Obj Demo.dto Demo.collaborators := Demo.ok_obj in
  request_json rq = Ok j /\
  @V1RequestBase Demo.dto j = Ok req /\
  is_nodriver (DRIVER_SELECTION (ext w)) = true /\
  loops_consistent w /\
  ~ In (loops w) (loops_opened (trace w)) /\
  loops_consistent (snd (controller_v1 rq w)) /\
  fst (controller_v1 rq w) = Some (Ok (RetDict (object_to_dict res))) /\
  trace (snd (controller_v1 rq w))
    = trace w ++ [EvAsyncAdapter req; EvLoopNew O; EvLoopClose O 1%nat].
Proof.
  split; [reflexivity|]. split; [reflexivity|]. split; [reflexivity|].
  split; [constructor|].
  destruct (@controller_v1_async_runs_to_completion
              Demo.dto Demo.collaborators
              (Demo.post_v1 (Demo.solve_body "request.get"))
              (Demo.world (Some "nodriver") true)
              (Some (Demo.solve_json "request.get"))
              (Demo.solve_request "request.get")
              eq_refl eq_refl eq_refl (Forall_nil _))
    as [Hfresh [Hcons [Hr [_ Ht]]]].
  split; [exact Hfresh|]. split; [exact Hcons|]. split; [exact Hr|exact Ht].
Defined.

Lemma main_self_test_before_serving_witness :
  let traffic := [Demo.post_v1 (Demo.solve_body "request.get")] in
  let w := Demo.world (Some "nodriver") false in
  append_only Demo.no_plugins /\
  exists evs,
    trace (snd (main Demo.no_plugins Demo.process traffic w)) = trace w ++ evs /\
    fst (main Demo.no_plugins Demo.process traffic w)
      = Some (Raise (SystemExit 1)) /\
    Forall (fun ev => serving ev = false) evs.
Proof.
  assert (Hp : append_only Demo.no_plugins) by (intros cb H; exact H).
  split; [exact Hp|].
  destruct (@main_self_test_before_serving Demo.dto Demo.collaborators
              Demo.no_plugins Demo.process
              [Demo.post_v1 (Demo.solve_body "request.get")]
              (Demo.world (Some "nodriver") false) Hp)
    as [evs [Ht [_ Hfail]]].
  exists evs. split; [exact Ht|].
  destruct (Hfail _ _ eq_refl ltac:(discriminate)) as [Hmain Hquiet].
  split; [rewrite Hmain; reflexivity|exact Hquiet].
Defined.

(* ================================================================== *)
(** * Further properties of the handlers *)

Section Handlers.

Context {D : Dto} {C : Collaborators}.

Lemma truthy_true (o : option string) :
  truthy o = true -> exists u, o = Some u /\ u <> EmptyString.
Proof.
  destruct o as [u|]; simpl; [|discriminate].
  intros H. exists u. split; [reflexivity|].
  intros ->. discriminate H.
Qed.

Lemma truthy_false (o : option string) :
  truthy o = false -> o = None \/ o = Some EmptyString.
Proof.
  destruct o as [u|]; simpl; [|left; reflexivity].
  intros H. apply negb_false_iff in H. apply String.eqb_eq in H.
  right. rewrite H. reflexivity.
Qed.

(** X1.  The welcome and the health handlers call their own endpoint of the
    synchronous service and nothing else: whatever the backend selection, no
    solve adapter is invoked, no event loop is created, no outbound request
    is made and the response object is left as it was. *)
Theorem index_and_health_bypass_the_adapters (w : World) :
  (exists evs,
     trace (snd (index w)) = trace w ++ evs /\
     adapters_invoked evs = [] /\ loops_opened evs = [] /\
     outbound_requests evs = []) /\
  response (snd (index w)) = response w /\
  (exists evs,
     trace (snd (health w)) = trace w ++ evs /\
     adapters_invoked evs = [] /\ loops_opened evs = [] /\
     outbound_requests evs = []) /\
  response (snd (health w)) = response w.
Proof.
  unfold index, health, call, bind, log, add_event, set_ext. simpl.
  destruct (index_endpoint (ext w)) as [[[r1|e1]|] x1];
    destruct (health_endpoint (ext w)) as [[[r2|e2]|] x2]; simpl;
    repeat split; try (eexists; repeat split; reflexivity).
Qed.

(** X2.  The solve handler writes nothing to the response but the status
    500: in every case (the body cannot be read, the request object cannot
    be built, the adapter returns, raises or never returns) the content type
    is untouched and the status is either untouched or 500, and it is 500
    only where the adapter returned an object whose [__error_500__] is
    true. *)
Theorem controller_v1_sets_no_status_but_500 (rq : Request) (w : World) :
  let r := fst (controller_v1 rq w) in
  let w' := snd (controller_v1 rq w) in
  content_type (response w') = content_type (response w) /\
  (status (response w') = status (response w) \/
   (status (response w') = 500 /\
    exists res, r = Some (Ok (RetDict (object_to_dict res))) /\
                __error_500__ res = true)).
Proof.
  destruct (request_json rq) as [j|e] eqn:Hj.
  2:{ rewrite (controller_v1_json_raises rq w Hj). simpl. auto. }
  destruct (V1RequestBase j) as [req|e] eqn:Hreq.
  2:{ rewrite (controller_v1_dto_raises rq w Hj Hreq). simpl. auto. }
  destruct (is_nodriver (DRIVER_SELECTION (ext w))) eqn:Hsel.
  - rewrite (controller_v1_async rq w Hj Hreq Hsel). simpl.
    destruct (run_until_complete (controller_v1_endpoint_nd req) (ext w))
      as [[[[res|e]|] x] n]; simpl; auto.
    destruct (__error_500__ res) eqn:Hflag; simpl; auto.
    split; [reflexivity|]. right. split; [reflexivity|].
    exists res. auto.
  - rewrite (controller_v1_sync rq w Hj Hreq Hsel). simpl.
    destruct (controller_v1_endpoint req (ext w)) as [[[res|e]|] x];
      simpl; auto.
    destruct (__error_500__ res) eqn:Hflag; simpl; auto.
    split; [reflexivity|]. right. split; [reflexivity|].
    exists res. auto.
Qed.

(** X3.  The solve handler catches nothing: when the selected adapter
    raises, the handler raises the same exception, and when the adapter
    never returns neither does the handler; in both cases the response
    object is left as it was (no status 500 is set). *)
Theorem controller_v1_propagates_adapter_failure
    (rq : Request) (w : World) (j : option Json) (req : V1Request) :
  request_json rq = Ok j ->
  V1RequestBase j = Ok req ->
  (forall e, adapter_answer req (ext w) = Some (Raise e) ->
             fst (controller_v1 rq w) = Some (Raise e) /\
             response (snd (controller_v1 rq w)) = response w) /\
  (adapter_answer req (ext w) = None ->
   fst (controller_v1 rq w) = None /\
   response (snd (controller_v1 rq w)) = response w).
Proof.
  intros Hj Hreq. unfold adapter_answer.
  destruct (is_nodriver (DRIVER_SELECTION (ext w))) eqn:Hsel.
  - rewrite (controller_v1_async rq w Hj Hreq Hsel). simpl.
    destruct (run_until_complete (controller_v1_endpoint_nd req) (ext w))
      as [[[[res|e]|] x] n]; simpl; split; intros; try discriminate;
      try (split; [congruence|reflexivity]).
  - rewrite (controller_v1_sync rq w Hj Hreq Hsel). simpl.
    destruct (controller_v1_endpoint req (ext w)) as [[[res|e]|] x];
      simpl; split; intros; try discriminate;
      try (split; [congruence|reflexivity]).
Qed.

(** X4.  The solve pipeline and the forwarding endpoint share nothing: the
    solve handler never makes an outbound HTTP request, and the content
    handler never invokes a solve adapter, never creates an event loop and
    makes at most one outbound request. *)
Theorem solve_and_forward_are_disjoint (rq : Request) (w : World) :
  (exists evs,
     trace (snd (controller_v1 rq w)) = trace w ++ evs /\
     outbound_requests evs = []) /\
  (exists evs,
     trace (snd (content rq w)) = trace w ++ evs /\
     adapters_invoked evs = [] /\ loops_opened evs = [] /\
     (length (outbound_requests evs) <= 1)%nat).
Proof.
  split.
  - destruct (request_json rq) as [j|e] eqn:Hj.
    2:{ rewrite (controller_v1_json_raises rq w Hj). exists [].
        rewrite app_nil_r. auto. }
    destruct (V1RequestBase j) as [req|e] eqn:Hreq.
    2:{ rewrite (controller_v1_dto_raises rq w Hj Hreq). exists [].
        rewrite app_nil_r. auto. }
    destruct (is_nodriver (DRIVER_SELECTION (ext w))) eqn:Hsel.
    + rewrite (controller_v1_async rq w Hj Hreq Hsel). simpl.
      destruct (run_until_complete (controller_v1_endpoint_nd req) (ext w))
        as [[[[res|e]|] x] n]; simpl; eexists; split; reflexivity.
    + rewrite (controller_v1_sync rq w Hj Hreq Hsel). simpl.
      destruct (controller_v1_endpoint req (ext w)) as [[[res|e]|] x];
        simpl; eexists; split; reflexivity.
  - destruct (truthy (multidict_get "url" (query rq))) eqn:Ht.
    + destruct (truthy_true _ Ht) as [u [Hu Hne]].
      rewrite (content_forward rq w Hu Hne). simpl.
      exists [EvRequestsGet u (forwarded_headers rq)].
      destruct (requests_get u (forwarded_headers rq) (ext w))
        as [[[resp|e]|] x]; try destruct (is_RequestException e);
        simpl; repeat split; auto.
    + rewrite (content_no_url rq w Ht). simpl. exists [].
      rewrite app_nil_r. repeat split; auto.
Qed.

(** X5.  On a fresh response the status the content handler leaves tells
    what happened: it is 400 exactly when the [url] parameter is absent or
    empty, 500 exactly when the outbound request raised a
    [RequestException], and 200 in every other case, also when the outbound
    request raised another exception or never returned. *)
Theorem content_status_by_outcome (rq : Request) (w : World) :
  response w = fresh_response ->
  let st := status (response (snd (content rq w))) in
  (st = 400 <-> truthy (multidict_get "url" (query rq)) = false) /\
  (st = 500 <->
   exists u msg,
     multidict_get "url" (query rq) = Some u /\ u <> EmptyString /\
     fst (requests_get u (forwarded_headers rq) (ext w))
       = Some (Raise (RequestException msg))) /\
  (st = 200 \/ st = 400 \/ st = 500).
Proof.
  intros Hfresh.
  destruct (truthy (multidict_get "url" (query rq))) eqn:Ht.
  - destruct (truthy_true _ Ht) as [u [Hu Hne]].
    rewrite (content_forward rq w Hu Hne). simpl.
    destruct (requests_get u (forwarded_headers rq) (ext w))
      as [[[resp|e]|] x] eqn:Hget; try destruct e; simpl;
      rewrite ?Hfresh; simpl;
      (split; [split; intros; discriminate|]);
      (split; [|auto]).
    all: split;
      [ try discriminate
      | intros [u' [msg' [Hu' [_ H']]]]; rewrite Hu in Hu';
        injection Hu' as <-; rewrite Hget in H'; simpl in H';
        try discriminate H' ].
    + intros _. exists u, msg. rewrite Hget. auto.
    + reflexivity.
  - rewrite (content_no_url rq w Ht). simpl.
    split; [split; reflexivity|]. split; [|auto].
    split; [discriminate|].
    intros [u [msg [Hu [Hne _]]]].
    destruct (truthy_false _ Ht) as [H|H]; rewrite H in Hu.
    + discriminate Hu.
    + injection Hu as <-. contradiction.
Qed.

(** X6.  The content handler catches [RequestException] only: any other
    exception of the outbound request leaves the handler as it is, and the
    response object is left as it was (no status 500, no JSON content
    type). *)
Theorem content_propagates_other_exceptions
    (rq : Request) (w : World) (u : string) (e : Exn) :
  multidict_get "url" (query rq) = Some u ->
  u <> EmptyString ->
  fst (requests_get u (forwarded_headers rq) (ext w)) = Some (Raise e) ->
  is_RequestException e = false ->
  fst (content rq w) = Some (Raise e) /\
  response (snd (content rq w)) = response w.
Proof.
  intros Hu Hne Hget He. rewrite (content_forward rq w Hu Hne). simpl.
  destruct (requests_get u (forwarded_headers rq) (ext w)) as [o x].
  simpl in Hget. subst o. rewrite He. split; reflexivity.
Qed.

(** X7.  What the content handler reports is what it did: when the target
    answers, the returned dictionary has the five fields [message],
    [target_url], [received_headers], [status] and [external_api_response]
    in this order, and its [target_url] and [received_headers] are the URL
    and the headers of the one outbound request that was made. *)
Theorem content_reports_what_it_forwarded
    (rq : Request) (w : World) (u : string) (resp : ExternalResponse) :
  multidict_get "url" (query rq) = Some u ->
  u <> EmptyString ->
  fst (requests_get u (forwarded_headers rq) (ext w)) = Some (Ok resp) ->
  exists d evs url hdrs,
    fst (content rq w) = Some (Ok (RetDict d)) /\
    dict_keys d = ["message"; "target_url"; "received_headers"; "status";
                   "external_api_response"] /\
    trace (snd (content rq w)) = trace w ++ evs /\
    outbound_requests evs = [(url, hdrs)] /\
    dict_get "target_url" d = Some (JStr url) /\
    dict_get "received_headers" d = Some (headers_dict hdrs).
Proof.
  intros Hu Hne Hget. rewrite (content_forward rq w Hu Hne). simpl.
  destruct (requests_get u (forwarded_headers rq) (ext w)) as [o x].
  simpl in Hget. subst o. simpl.
  eexists. exists [EvRequestsGet u (forwarded_headers rq)].
  exists u, (forwarded_headers rq). repeat split.
Qed.

End Handlers.

(* ================================================================== *)
(** * Further properties of the start-up script *)

Section Startup.

Context {D : Dto} {C : Collaborators}.

Variable plugins : Proc Ret -> Proc Ret.

(** ** Sequences of set-up calls *)

Lemma makes_calls_ret {A} (Q : A -> Prop) (a : A) :
  Q a -> makes_calls [] Q (ret a).
Proof.
  intros HQ w. exists O. simpl. rewrite app_nil_r.
  do 3 (split; [reflexivity|]). split; [lia|].
  intros a' H. injection H as <-. split; [reflexivity|exact HQ].
Qed.

Lemma makes_calls_raise_bind {A B} (l : list Setup) (Q : B -> Prop)
    (e : Exn) (k : A -> Proc B) :
  makes_calls l Q (bind (raise e) k).
Proof.
  intros w. exists O. simpl. rewrite app_nil_r.
  do 3 (split; [reflexivity|]). split; [lia|].
  intros a H. discriminate H.
Qed.

Lemma makes_calls_ret_bind {A B} (l : list Setup) (Q : B -> Prop)
    (a : A) (k : A -> Proc B) :
  makes_calls l Q (k a) -> makes_calls l Q (bind (ret a) k).
Proof. intros H w. exact (H w). Qed.

Lemma makes_calls_setup_bind {B} (l : list Setup) (Q : B -> Prop)
    (s : Setup) (k : unit -> Proc B) :
  makes_calls l Q (k tt) -> makes_calls (s :: l) Q (bind (setup s) k).
Proof.
  intros Hk w. unfold bind, setup, call, bind, log, add_event, set_ext. simpl.
  destruct (setup_call s (ext w)) as [[[[]|e]|] x]; simpl.
  - match goal with
    | |- context [k tt ?w0] => destruct (Hk w0) as [n [Ht [Hr [Hl [Hn Hok]]]]]
    end.
    exists (S n). simpl in *. rewrite Ht, Hr, Hl, <- app_assoc.
    do 3 (split; [reflexivity|]). split; [lia|].
    intros a Ha. destruct (Hok a Ha) as [-> HQ]. split; [reflexivity|exact HQ].
  - exists 1%nat. simpl.
    do 3 (split; [reflexivity|]). split; [lia|]. intros a Ha. discriminate Ha.
  - exists 1%nat. simpl.
    do 3 (split; [reflexivity|]). split; [lia|]. intros a Ha. discriminate Ha.
Qed.

(** The configuration block, case by case. *)
Lemma startup_config_cases (p : Process) (w : World) :
  exists n,
    trace (snd (startup_config p w))
      = trace w ++ map EvSetup (firstn n (config_calls p)) /\
    response (snd (startup_config p w)) = response w /\
    loops (snd (startup_config p w)) = loops w /\
    (version_lt_3_9 (version_info p) = true -> n = O) /\
    (forall e, server_port_of p = Raise e ->
               (n <= calls_before_port p)%nat /\
               forall hp, fst (startup_config p w) <> Some (Ok hp)) /\
    (forall hp, fst (startup_config p w) = Some (Ok hp) ->
                n = length (config_calls p) /\
                version_lt_3_9 (version_info p) = false /\
                fst hp = environ_get p "HOST" "0.0.0.0" /\
                server_port_of p = Ok (snd hp)).
Proof.
  unfold startup_config, config_calls, calls_before_port. cbv zeta.
  destruct (version_lt_3_9 (version_info p)) eqn:Hver.
  - (* the version check raises *)
    match goal with
    | |- context [bind (raise ?e) ?k] =>
        destruct (makes_calls_raise_bind [] (fun _ : string * Z => False) e k w)
          as [n [Ht [Hr [Hl [Hn Hok]]]]]
    end.
    exists O. rewrite firstn_nil in Ht.
    split; [exact Ht|]. split; [exact Hr|]. split; [exact Hl|].
    split; [reflexivity|]. split.
    + intros e' _. split; [lia|].
      intros hp Hhp. destruct (Hok hp Hhp) as [_ []].
    + intros hp Hhp. destruct (Hok hp Hhp) as [_ []].
  - destruct (server_port_of p) as [port|eport] eqn:Hport.
    + (* every step is reached *)
      match goal with
      | |- context [firstn _ ?l] =>
          assert (H : makes_calls l
                        (fun hp => hp = (environ_get p "HOST" "0.0.0.0", port))
                        (startup_config p))
      end.
      { unfold startup_config. cbv zeta. rewrite Hver, Hport.
        apply makes_calls_ret_bind.
        destruct (String.eqb (os_name p) "nt"); simpl;
          [apply makes_calls_setup_bind|apply makes_calls_ret_bind];
          do 3 apply makes_calls_setup_bind;
          apply makes_calls_ret_bind;
          do 5 apply makes_calls_setup_bind;
          apply makes_calls_ret; reflexivity. }
      unfold startup_config in H. cbv zeta in H. rewrite Hver, Hport in H.
      destruct (H w) as [n [Ht [Hr [Hl [Hn Hok]]]]].
      exists n.
      split; [exact Ht|]. split; [exact Hr|]. split; [exact Hl|].
      split; [intros Hv; discriminate Hv|].
      split; [intros e' He'; discriminate He'|].
      intros hp Hhp. destruct (Hok hp Hhp) as [Hfull ->].
      split; [exact Hfull|]. repeat split.
    + (* reading the port raises *)
      match goal with
      | |- context [firstn _ (?l1 ++ ?l2)] =>
          assert (H : makes_calls
                        (l1 ++ [set_ca_bundle; get_config_log_html;
                                get_config_headless])
                        (fun _ : string * Z => False)
                        (startup_config p))
      end.
      { unfold startup_config. cbv zeta. rewrite Hver, Hport.
        apply makes_calls_ret_bind.
        destruct (String.eqb (os_name p) "nt"); simpl;
          [apply makes_calls_setup_bind|apply makes_calls_ret_bind];
          do 3 apply makes_calls_setup_bind;
          apply makes_calls_raise_bind. }
      unfold startup_config in H. cbv zeta in H. rewrite Hver, Hport in H.
      destruct (H w) as [n [Ht [Hr [Hl [Hn Hok]]]]].
      exists n.
      assert (Hlen : (n <= (if String.eqb (os_name p) "nt" then 1 else 0) + 3)%nat).
      { destruct (String.eqb (os_name p) "nt"); simpl in Hn; simpl; lia. }
      assert (Hfirst :
        firstn n ((if String.eqb (os_name p) "nt" then [freeze_support] else [])
                  ++ [set_ca_bundle; get_config_log_html; get_config_headless])
        = firstn n (config_calls p)).
      { unfold config_calls. cbv zeta.
        destruct (String.eqb (os_name p) "nt"); simpl in *;
          do 5 (destruct n as [|n]; [first [reflexivity|lia]|]); lia. }
      unfold config_calls in Hfirst. cbv zeta in Hfirst.
      rewrite Hfirst in Ht.
      split; [exact Ht|]. split; [exact Hr|]. split; [exact Hl|].
      split; [intros Hv; discriminate Hv|]. split.
      * intros e' _. split; [exact Hlen|].
        intros hp Hhp. destruct (Hok hp Hhp) as [_ []].
      * intros hp Hhp. destruct (Hok hp Hhp) as [_ []].
Qed.

(** The last block, case by case. *)
Lemma start_server_cases
    (host : string) (port : Z) (traffic : list Request) (w : World) :
  append_only plugins ->
  (fst (setup_call prometheus_setup (ext w)) = Some (Ok tt) ->
   exists evs,
     trace (snd (start_server plugins host port traffic w))
       = trace w ++ server_start_events host port ++ evs) /\
  (fst (setup_call prometheus_setup (ext w)) <> Some (Ok tt) ->
   fst (start_server plugins host port traffic w)
     = fst (setup_call prometheus_setup (ext w)) /\
   trace (snd (start_server plugins host port traffic w))
     = trace w ++ firstn 3 (server_start_events host port)).
Proof.
  intros Hp. unfold start_server, install, setup, run, call, bind, log,
    add_event, set_ext. simpl.
  destruct (setup_call prometheus_setup (ext w)) as [[[[]|e]|] x]; simpl.
  - split; [intros _|intros H; congruence].
    match goal with
    | |- context [serve plugins traffic ?w0] =>
        destruct (emits_serve traffic Hp w0) as [evs [Hevs _]];
        exists evs; rewrite Hevs
    end.
    simpl. rewrite <- !app_assoc. reflexivity.
  - split; [intros H; discriminate H|intros _].
    split; [reflexivity|]. rewrite <- !app_assoc. reflexivity.
  - split; [intros H; discriminate H|intros _].
    split; [reflexivity|]. rewrite <- !app_assoc. reflexivity.
Qed.

(** X8.  On a Python older than 3.9 the script raises at once: nothing has
    been configured, no self-test has run, the server is not started and the
    state of the process is untouched. *)
Theorem main_refuses_old_python
    (p : Process) (traffic : list Request) (w : World) :
  version_lt_3_9 (version_info p) = true ->
  main plugins p traffic w
    = (Some (Raise (PyException
        "The Python version is less than 3.9, a version equal to or higher is required.")),
       w).
Proof.
  intros H. unfold main, startup_config, bind. rewrite H. reflexivity.
Qed.

(** X9.  When PORT is set to something [int] rejects, the script does not
    complete: it stops before the backend selection is read, so that only
    the certificate fix, the two configuration checks and (on Windows)
    [freeze_support] can have been called; no self-test runs and the server
    is not started. *)
Theorem main_stops_on_invalid_port
    (p : Process) (traffic : list Request) (w : World) (s : string) :
  assoc_get "PORT" (environ p) = Some s ->
  int_of_str s = None ->
  fst (main plugins p traffic w) <> Some (Ok tt) /\
  exists evs,
    trace (snd (main plugins p traffic w)) = trace w ++ evs /\
    Forall (fun ev => In ev (map EvSetup [freeze_support; set_ca_bundle;
                                          get_config_log_html;
                                          get_config_headless])) evs.
Proof.
  intros Hs Hint.
  assert (Hport : server_port_of p
                  = Raise (PyException "invalid literal for int()")).
  { unfold server_port_of. rewrite Hs, Hint. reflexivity. }
  destruct (startup_config_cases p w) as [n [Ht [_ [_ [_ [Hbad _]]]]]].
  destruct (Hbad _ Hport) as [Hn Hnot].
  unfold main, bind.
  destruct (startup_config p w) as [[[hp|e]|] w1]; simpl in *.
  - exfalso. apply (Hnot hp). reflexivity.
  - split; [discriminate|].
    exists (map EvSetup (firstn n (config_calls p))). split; [exact Ht|].
    unfold config_calls, calls_before_port in *.
    destruct (String.eqb (os_name p) "nt"); simpl in *;
      do 5 (destruct n as [|n];
            [first [exfalso; lia
                   |simpl; repeat (apply Forall_cons; [simpl; tauto|]);
                    apply Forall_nil]|]);
      lia.
  - split; [discriminate|].
    exists (map EvSetup (firstn n (config_calls p))). split; [exact Ht|].
    unfold config_calls, calls_before_port in *.
    destruct (String.eqb (os_name p) "nt"); simpl in *;
      do 5 (destruct n as [|n];
            [first [exfalso; lia
                   |simpl; repeat (apply Forall_cons; [simpl; tauto|]);
                    apply Forall_nil]|]);
      lia.
Qed.

(** X10.  The configuration block makes its calls in the order of the
    source and skips none: what has been called is always an initial segment
    of the sequence [config_calls], the whole of it when the block returns;
    in particular [utils.get_driver_selection] has then been called, before
    the self-test reads the selection. *)
Theorem startup_config_calls_in_order (p : Process) (w : World) :
  exists done rest,
    config_calls p = done ++ rest /\
    trace (snd (startup_config p w)) = trace w ++ map EvSetup done /\
    (forall hp, fst (startup_config p w) = Some (Ok hp) ->
                rest = [] /\ In get_driver_selection done).
Proof.
  destruct (startup_config_cases p w) as [n [Ht [_ [_ [_ [_ Hok]]]]]].
  exists (firstn n (config_calls p)), (skipn n (config_calls p)).
  split; [symmetry; apply firstn_skipn|]. split; [exact Ht|].
  intros hp Hhp. destruct (Hok hp Hhp) as [Hn _]. subst n.
  rewrite skipn_all, firstn_all. split; [reflexivity|].
  unfold config_calls. apply in_or_app. right. simpl. tauto.
Qed.

(** X11.  When the configuration block returns, the host is the value of
    HOST, or 0.0.0.0 when HOST is not set, and the port is the integer value
    of PORT, or 8191 when PORT is not set. *)
Theorem startup_config_binds_environment
    (p : Process) (w : World) (hp : string * Z) :
  fst (startup_config p w) = Some (Ok hp) ->
  (forall h, assoc_get "HOST" (environ p) = Some h -> fst hp = h) /\
  (assoc_get "HOST" (environ p) = None -> fst hp = "0.0.0.0"%string) /\
  (forall s, assoc_get "PORT" (environ p) = Some s ->
             int_of_str s = Some (snd hp)) /\
  (assoc_get "PORT" (environ p) = None -> snd hp = 8191).
Proof.
  intros Hhp.
  destruct (startup_config_cases p w) as [n [_ [_ [_ [_ [_ Hok]]]]]].
  destruct (Hok hp Hhp) as [_ [_ [Hhost Hport]]].
  unfold environ_get in Hhost. unfold server_port_of in Hport.
  repeat split.
  - intros h Hh. rewrite Hh in Hhost. exact Hhost.
  - intros Hh. rewrite Hh in Hhost. exact Hhost.
  - intros s Hs. rewrite Hs in Hport.
    destruct (int_of_str s); [|discriminate Hport]. congruence.
  - intros Hs. rewrite Hs in Hport. congruence.
Qed.

(** X12.  The server is brought up in the order of the source: the logger
    plugin, the error plugin, the set-up of the metrics, the metrics plugin,
    and only then the server; when the set-up of the metrics raises or never
    returns, the script ends the same way after these three steps and the
    server is not started. *)
Theorem start_server_installs_plugins_first
    (host : string) (port : Z) (traffic : list Request) (w : World) :
  append_only plugins ->
  let r := fst (start_server plugins host port traffic w) in
  let w' := snd (start_server plugins host port traffic w) in
  (fst (setup_call prometheus_setup (ext w)) = Some (Ok tt) ->
   exists evs, trace w' = trace w ++ server_start_events host port ++ evs) /\
  (fst (setup_call prometheus_setup (ext w)) <> Some (Ok tt) ->
   r = fst (setup_call prometheus_setup (ext w)) /\
   trace w' = trace w ++ firstn 3 (server_start_events host port) /\
   Forall (fun ev => serving ev = false)
          (firstn 3 (server_start_events host port))).
Proof.
  intros Hp r w'.
  destruct (start_server_cases host port traffic w Hp) as [Hok Hfail].
  split; [exact Hok|].
  intros H. destruct (Hfail H) as [Hr Ht].
  split; [exact Hr|]. split; [exact Ht|].
  simpl. repeat constructor.
Qed.

(** X13.  A successful start, end to end: when the configuration block
    returns, the self-test passes and the metrics are set up, the script has
    made, in this order, all the configuration calls, the self-test of the
    selected backend, the three plugin installations around the set-up of
    the metrics, and the start of the server on the configured host and
    port; whatever the requests add comes after. *)
Theorem main_startup_sequence
    (p : Process) (traffic : list Request) (w w1 w2 : World)
    (hp : string * Z) :
  append_only plugins ->
  startup_config p w = (Some (Ok hp), w1) ->
  self_test w1 = (Some (Ok tt), w2) ->
  fst (setup_call prometheus_setup (ext w2)) = Some (Ok tt) ->
  exists test_evs evs,
    trace (snd (main plugins p traffic w))
      = trace w ++ map EvSetup (config_calls p)
        ++ (self_test_event (DRIVER_SELECTION (ext w1)) :: test_evs)
        ++ server_start_events (environ_get p "HOST" "0.0.0.0") (snd hp)
        ++ evs /\
    Forall (fun ev => quiet ev = true) test_evs /\
    server_port_of p = Ok (snd hp).
Proof.
  intros Hp Hcfg Htest Hprom.
  destruct (startup_config_cases p w) as [n [Ht [_ [_ [_ [_ Hok]]]]]].
  rewrite Hcfg in Ht, Hok. simpl in Ht, Hok.
  destruct (Hok hp eq_refl) as [Hn [_ [Hhost Hport]]]. subst n.
  rewrite firstn_all in Ht.
  destruct (self_test_trace w1) as [test_evs [Ht2 Hq]].
  rewrite Htest in Ht2. simpl in Ht2.
  destruct (start_server_cases (fst hp) (snd hp) traffic w2 Hp)
    as [Hstart _].
  destruct (Hstart Hprom) as [evs Ht3].
  exists test_evs, evs. split; [|split; [exact Hq|exact Hport]].
  unfold main, bind. rewrite Hcfg, Htest. rewrite Ht3, Ht2, Ht, Hhost.
  rewrite <- !app_assoc. reflexivity.
Qed.

End Startup.

(* ================================================================== *)
(** * The further properties on the test doubles *)

Lemma controller_v1_propagates_adapter_failure_witness :
  let rq := Demo.post_v1 (Demo.solve_body "request.get") in
  let w := Faulty.world None in
  let j := Some (Demo.solve_json "request.get") in
  let req : @V1Request Demo.dto := Demo.solve_request "request.get" in
  request_json rq = Ok j /\
  @V1RequestBase Demo.dto j = Ok req /\
  adapter_answer req (ext w) = Some (Raise Faulty.crash) /\
  fst (controller_v1 rq w) = Some (Raise Faulty.crash) /\
  response (snd (controller_v1 rq w)) = response w.
Proof.
  split; [reflexivity|]. split; [reflexivity|]. split; [reflexivity|].
  destruct (@controller_v1_propagates_adapter_failure
              Demo.dto Faulty.collaborators
              (Demo.post_v1 (Demo.solve_body "request.get"))
              (Faulty.world None)
              (Some (Demo.solve_json "request.get"))
              (Demo.solve_request "request.get") eq_refl eq_refl)
    as [Hraise _].
  exact (Hraise Faulty.crash eq_refl).
Defined.

Lemma content_status_by_outcome_witness :
  let rq := Demo.get_request "/content" [("url", "http://unreachable.test")]
              [] in
  let w := Demo.world None true in
  response w = fresh_response /\
  status (response (snd (content rq w))) = 500 /\
  truthy (multidict_get "url" (query rq)) = true.
Proof.
  split; [reflexivity|].
  destruct (@content_status_by_outcome Demo.dto Demo.collaborators
              (Demo.get_request "/content"
                 [("url", "http://unreachable.test")] [])
              (Demo.world None true) eq_refl)
    as [_ [H500 _]].
  split; [|reflexivity].
  apply H500. exists "http://unreachable.test", "connection refused".
  split; [reflexivity|]. split; [discriminate|reflexivity].
Defined.

Lemma content_propagates_other_exceptions_witness :
  let rq := Demo.get_request "/content" [("url", "http://example.test")] [] in
  let w := Faulty.world None in
  let u := "http://example.test" in
  let e := PyException "unexpected keyword argument" in
  multidict_get "url" (query rq) = Some u /\
  u <> EmptyString /\
  fst (requests_get u (forwarded_headers rq) (ext w)) = Some (Raise e) /\
  is_RequestException e = false /\
  fst (content rq w) = Some (Raise e) /\
  response (snd (content rq w)) = response w.
Proof.
  split; [reflexivity|]. split; [discriminate|]. split; [reflexivity|].
  split; [reflexivity|].
  apply (@content_propagates_other_exceptions Demo.dto Faulty.collaborators
           (Demo.get_request "/content" [("url", "http://example.test")] [])
           (Faulty.world None) "http://example.test"
           (PyException "unexpected keyword argument"));
    [reflexivity|discriminate|reflexivity|reflexivity].
Defined.

Lemma content_reports_what_it_forwarded_witness :
  let rq := Demo.get_request "/content" [("url", "http://example.test")]
              [("Cookie", "a=b")] in
  let w := Demo.world None true in
  let u := "http://example.test" in
  let resp := {| status_code := 404; text := "stub body" |} in
  multidict_get "url" (query rq) = Some u /\
  u <> EmptyString /\
  fst (requests_get u (forwarded_headers rq) (ext w)) = Some (Ok resp) /\
  exists d evs url hdrs,
    fst (content rq w) = Some (Ok (RetDict d)) /\
    dict_keys d = ["message"; "target_url"; "received_headers"; "status";
                   "external_api_response"] /\
    trace (snd (content rq w)) = trace w ++ evs /\
    outbound_requests evs = [(url, hdrs)] /\
    dict_get "target_url" d = Some (JStr url) /\
    dict_get "received_headers" d = Some (headers_dict hdrs).
Proof.
  split; [reflexivity|]. split; [discriminate|]. split; [reflexivity|].
  apply (@content_reports_what_it_forwarded Demo.dto Demo.collaborators
           (Demo.get_request "/content" [("url", "http://example.test")]
              [("Cookie", "a=b")])
           (Demo.world None true) "http://example.test"
           {| status_code := 404; text := "stub body" |});
    [reflexivity|discriminate|reflexivity].
Defined.

Lemma main_refuses_old_python_witness :
  let p := {| version_info := (3, 8); os_name := "posix"; environ := [] |} in
  let w := Demo.world None true in
  version_lt_3_9 (version_info p) = true /\
  fst (main Demo.no_plugins p [] w)
    = Some (Raise (PyException
        "The Python version is less than 3.9, a version equal to or higher is required.")) /\
  snd (main Demo.no_plugins p [] w) = w.
Proof.
  split; [reflexivity|].
  rewrite (@main_refuses_old_python Demo.dto Demo.collaborators
             Demo.no_plugins
             {| version_info := (3, 8); os_name := "posix"; environ := [] |}
             [] (Demo.world None true) eq_refl).
  split; reflexivity.
Defined.

Lemma main_stops_on_invalid_port_witness :
  let p := {| version_info := (3, 11); os_name := "nt";
              environ := [("PORT", "eighty")] |} in
  let w := Demo.world None true in
  assoc_get "PORT" (environ p) = Some "eighty" /\
  @int_of_str Demo.dto Demo.collaborators "eighty" = None /\
  fst (main Demo.no_plugins p [] w) <> Some (Ok tt) /\
  exists evs,
    trace (snd (main Demo.no_plugins p [] w)) = trace w ++ evs /\
    Forall (fun ev => In ev (map EvSetup [freeze_support; set_ca_bundle;
                                          get_config_log_html;
                                          get_config_headless])) evs.
Proof.
  split; [reflexivity|]. split; [reflexivity|].
  apply (@main_stops_on_invalid_port Demo.dto Demo.collaborators
           Demo.no_plugins
           {| version_info := (3, 11); os_name := "nt";
              environ := [("PORT", "eighty")] |}
           [] (Demo.world None true) "eighty");
    reflexivity.
Defined.

Lemma startup_config_binds_environment_witness :
  let p := {| version_info := (3, 11); os_name := "posix";
              environ := [("HOST", "127.0.0.1")] |} in
  let w := Demo.world None true in
  let hp := ("127.0.0.1", 8191) in
  fst (startup_config p w) = Some (Ok hp) /\
  (forall h, assoc_get "HOST" (environ p) = Some h -> fst hp = h) /\
  (assoc_get "PORT" (environ p) = None -> snd hp = 8191).
Proof.
  split; [reflexivity|].
  destruct (@startup_config_binds_environment Demo.dto Demo.collaborators
              {| version_info := (3, 11); os_name := "posix";
                 environ := [("HOST", "127.0.0.1")] |}
              (Demo.world None true) ("127.0.0.1", 8191) eq_refl)
    as [Hhost [_ [_ Hport]]].
  split; [exact Hhost|exact Hport].
Defined.

Lemma start_server_installs_plugins_first_witness :
  let w := Faulty.world None in
  append_only Faulty.no_plugins /\
  fst (setup_call prometheus_setup (ext w)) <> Some (Ok tt) /\
  fst (start_server Faulty.no_plugins "0.0.0.0" 8191 [] w)
    = Some (Raise (PyException "port in use")) /\
  trace (snd (start_server Faulty.no_plugins "0.0.0.0" 8191 [] w))
    = trace w ++ [EvInstall logger_plugin; EvInstall error_plugin;
                  EvSetup prometheus_setup].
Proof.
  assert (Hp : append_only Faulty.no_plugins) by (intros cb H; exact H).
  split; [exact Hp|]. split; [discriminate|].
  destruct (@start_server_installs_plugins_first
              Demo.dto Faulty.collaborators Faulty.no_plugins
              "0.0.0.0" 8191 [] (Faulty.world None) Hp)
    as [_ Hfail].
  destruct (Hfail ltac:(discriminate)) as [Hr [Ht _]].
  split; [exact Hr|exact Ht].
Defined.

Lemma main_startup_sequence_witness :
  let w := Demo.world (Some "nodriver") true in
  let hp := ("0.0.0.0"%string, 8191) in
  let w1 := snd (startup_config Demo.process w) in
  let w2 := snd (self_test w1) in
  append_only Demo.no_plugins /\
  startup_config Demo.process w = (Some (Ok hp), w1) /\
  self_test w1 = (Some (Ok tt), w2) /\
  fst (setup_call prometheus_setup (ext w2)) = Some (Ok tt) /\
  exists test_evs evs,
    trace (snd (main Demo.no_plugins Demo.process [] w))
      = trace w
        ++ map EvSetup (@config_calls Demo.dto Demo.collaborators Demo.process)
        ++ (EvSelfTestAsync :: test_evs)
        ++ server_start_events "0.0.0.0" 8191 ++ evs.
Proof.
  assert (Hp : append_only Demo.no_plugins) by (intros cb H; exact H).
  split; [exact Hp|].
  split; [vm_compute; reflexivity|].
  split; [vm_compute; reflexivity|].
  split; [vm_compute; reflexivity|].
  destruct (@main_startup_sequence Demo.dto Demo.collaborators
              Demo.no_plugins Demo.process []
              (Demo.world (Some "nodriver") true)
              (snd (startup_config Demo.process
                      (Demo.world (Some "nodriver") true)))
              (snd (self_test
                      (snd (startup_config Demo.process
                              (Demo.world (Some "nodriver") true)))))
              ("0.0.0.0"%string, 8191)
              Hp
              ltac:(vm_compute; reflexivity)
              ltac:(vm_compute; reflexivity)
              ltac:(vm_compute; reflexivity))
    as [test_evs [evs [Ht _]]].
  exists test_evs, evs. exact Ht.
Defined.
